(** * The subscription reminder scheduler of the gym assistant bot

    A shallow embedding of [app/bot/scheduler.py] together with the parts of
    [app/db/models.py] and [app/db/supabase.py] it drives, and the
    properties of the reminder core proved (or refuted) on that embedding.

    Conventions.
    - A [datetime.date] is its proleptic Gregorian ordinal
      ([date.toordinal()]), an integer between [MINORDINAL] and
      [MAXORDINAL]; the difference of two dates is the difference of their
      ordinals ([timedelta.days]).
    - A [datetime.datetime] is an opaque integer instant.
    - Coroutines are run to completion one after the other: an [await] is a
      plain call.  Every HTTP round trip (Supabase REST, Telegram API) asks
      the environment for its outcome, see [http].
    - Python exceptions are values of [exn]; only subclasses of [Exception]
      are represented, which is what [except Exception] catches. *)

From Stdlib Require Import ZArith String.
From stdpp Require Import gmap strings list.

Local Open Scope string_scope.
Local Open Scope list_scope.
Local Open Scope Z_scope.

(** ** Python values found in JSON rows and in loosely typed arguments

    The scalar values of the columns read by the scheduler: null, booleans,
    integers and strings. *)

Inductive PyVal :=
| PNone
| PBool (b : bool)
| PInt (z : Z)
| PStr (s : string).

(** [bool] is a subclass of [int]: [True == 1] and [False == 0]. *)
Definition py_as_int (v : PyVal) : option Z :=
  match v with
  | PInt z => Some z
  | PBool b => Some (if b then 1 else 0)
  | _ => None
  end.

(** Python [==] on these values. *)
Definition py_eq (a b : PyVal) : bool :=
  match a, b with
  | PNone, PNone => true
  | PStr s, PStr t => String.eqb s t
  | _, _ =>
      match py_as_int a, py_as_int b with
      | Some x, Some y => x =? y
      | _, _ => false
      end
  end.

(** Truth value testing, as used by [if not telegram_user_id]. *)
Definition truthy (v : PyVal) : bool :=
  match v with
  | PNone => false
  | PBool b => b
  | PInt z => negb (z =? 0)
  | PStr s => negb (String.eqb s EmptyString)
  end.

(** [d.get(key, default)] on a JSON object. *)
Definition dict_get (d : gmap string PyVal) (key : string) (default : PyVal) : PyVal :=
  match d !! key with
  | Some v => v
  | None => default
  end.

(** ** Data model ([app/db/models.py]) *)

Definition date := Z.
Definition datetime := Z.
(** A [Decimal] amount is only copied into the message; it is kept as its
    decimal text. *)
Definition Decimal := string.

Definition MINORDINAL : Z := 1.
Definition MAXORDINAL : Z := 3652059.
Definition MAX_DELTA_DAYS : Z := 999999999.

Inductive SubscriptionStatus := ACTIVE | EXPIRED | CANCELLED | FROZEN.

(** [SubscriptionStatus] is a [str] enumeration: a member compares equal to
    its value. *)
Definition status_value (s : SubscriptionStatus) : string :=
  match s with
  | ACTIVE => "active"
  | EXPIRED => "expired"
  | CANCELLED => "cancelled"
  | FROZEN => "frozen"
  end.

Record OwnerProfile := {
  user_id : string;
  profile_telegram_user_id : Z;
  profile_full_name : option string;
  reminder_enabled : bool;
  reminder_hour : Z;
  reminder_days_before : Z;
  timezone : string;
  profile_created_at : datetime
}.

Record Business := {
  business_ident : string;
  owner_id : string;
  business_name : string;
  business_created_at : datetime
}.

Record Client := {
  client_ident : string;
  client_business_id : string;
  full_name : string;
  phone : string;
  client_created_at : datetime
}.

Record Subscription := {
  sub_id : string;
  business_id : string;
  client_id : string;
  amount : Decimal;
  currency : string;
  start_date : date;
  end_date : date;
  status : SubscriptionStatus;
  reminder_sent_at : option datetime;
  created_at : datetime
}.

Definition with_reminder_sent_at (t : option datetime) (s : Subscription)
    : Subscription :=
  {| sub_id := sub_id s; business_id := business_id s; client_id := client_id s;
     amount := amount s; currency := currency s; start_date := start_date s;
     end_date := end_date s; status := status s; reminder_sent_at := t;
     created_at := created_at s |}.

(** ** Exceptions, log records, messages *)

Inductive exn :=
| SupabaseError (message : string)
| TelegramAPIError
| OverflowError
| OtherException (name : string).

Inductive Level := DEBUG | INFO | WARNING | ERROR.

(** One constructor per logging call of [scheduler.py]. *)
Inductive LogRecord :=
| LogSchedulerStarted
| LogSchedulerStopped
| LogRunningHourlyCheck (hour : Z)
| LogFailedToFetchOwners
| LogErrorProcessingOwner (telegram_user_id : PyVal) (exc : exn)
| LogHourlyCompleted
| LogErrorDuringHourlyCheck (exc : exn)
| LogNoRemindersDue (business : string)
| LogMarkedReminderSent (subscription : string)
| LogFailedToMark (subscription : string) (exc : exn)
| LogErrorSendingReminder (exc : exn).

Definition level_of (r : LogRecord) : Level :=
  match r with
  | LogSchedulerStarted | LogSchedulerStopped | LogHourlyCompleted => INFO
  | LogRunningHourlyCheck _ | LogNoRemindersDue _ | LogMarkedReminderSent _ => DEBUG
  | LogFailedToFetchOwners => WARNING
  | LogErrorProcessingOwner _ _ | LogErrorDuringHourlyCheck _
  | LogFailedToMark _ _ | LogErrorSendingReminder _ => ERROR
  end.

(** The [lines] list of [send_reminder_for_business], before it is joined;
    the f-strings are kept as their arguments. *)
Inductive Line :=
| LineTitle
| LineExpireIn (days_until : PyVal)
| LineBlank
| LineItem (client_name : string) (ends : date) (amt : Decimal) (cur : string)
| LineFooter.

Record Message := {
  chat_id : PyVal;
  text : list Line;
  parse_mode : string
}.

(** ** The world the scheduler runs in *)

(** Outcome of one HTTP round trip: the peer answers with a status code, or
    the transport fails with an exception ([httpx] or [aiogram] network
    errors). *)
Inductive Outcome :=
| Reply (status_code : Z)
| Broken (exc : exn).

Definition outcome_ok (o : Outcome) : bool :=
  match o with
  | Reply c => c <? 400
  | Broken _ => false
  end.

(** The objects of the APScheduler library that [start] and [stop] drive:
    an [AsyncIOScheduler] has a state and the jobs added to it.  A job of a
    running scheduler is a live timer registration of the event loop. *)
Inductive SchedulerState := STATE_STOPPED | STATE_RUNNING.

Record Job := {
  job_id : string;
  job_name : string
}.

Record AsyncIOScheduler := {
  state : SchedulerState;
  jobs : list Job
}.

Record World := {
  (** table [subscriptions] *)
  subscriptions : list Subscription;
  (** table [clients] *)
  clients : list Client;
  (** table [owner_profiles], as JSON rows *)
  owner_profiles : list (gmap string PyVal);
  (** messages delivered by [bot.send_message], oldest first *)
  outbox : list Message;
  (** records handed to [logger], oldest first *)
  log : list LogRecord;
  (** outcome of the n-th HTTP round trip, and how many were made so far *)
  io_script : nat -> Outcome;
  io_count : nat;
  (** the wall clock: [date.today()], [datetime.now()] and its [hour] *)
  clock_today : date;
  clock_now : datetime;
  clock_hour : Z;
  (** [get_settings().is_debug] *)
  is_debug : bool;
  (** every [AsyncIOScheduler] object created so far, by address *)
  schedulers : list AsyncIOScheduler;
  (** the field [self.scheduler] of the [SubscriptionReminderScheduler] *)
  self_scheduler : option nat
}.

Definition set_subscriptions (v : list Subscription) (w : World) : World :=
  {| subscriptions := v; clients := clients w; owner_profiles := owner_profiles w;
     outbox := outbox w; log := log w; io_script := io_script w;
     io_count := io_count w; clock_today := clock_today w; clock_now := clock_now w;
     clock_hour := clock_hour w; is_debug := is_debug w;
     schedulers := schedulers w; self_scheduler := self_scheduler w |}.

Definition set_outbox (v : list Message) (w : World) : World :=
  {| subscriptions := subscriptions w; clients := clients w;
     owner_profiles := owner_profiles w;
     outbox := v; log := log w; io_script := io_script w;
     io_count := io_count w; clock_today := clock_today w; clock_now := clock_now w;
     clock_hour := clock_hour w; is_debug := is_debug w;
     schedulers := schedulers w; self_scheduler := self_scheduler w |}.

Definition set_log (v : list LogRecord) (w : World) : World :=
  {| subscriptions := subscriptions w; clients := clients w;
     owner_profiles := owner_profiles w;
     outbox := outbox w; log := v; io_script := io_script w;
     io_count := io_count w; clock_today := clock_today w; clock_now := clock_now w;
     clock_hour := clock_hour w; is_debug := is_debug w;
     schedulers := schedulers w; self_scheduler := self_scheduler w |}.

Definition set_io_count (v : nat) (w : World) : World :=
  {| subscriptions := subscriptions w; clients := clients w;
     owner_profiles := owner_profiles w;
     outbox := outbox w; log := log w; io_script := io_script w;
     io_count := v; clock_today := clock_today w; clock_now := clock_now w;
     clock_hour := clock_hour w; is_debug := is_debug w;
     schedulers := schedulers w; self_scheduler := self_scheduler w |}.

Definition set_schedulers (v : list AsyncIOScheduler) (w : World) : World :=
  {| subscriptions := subscriptions w; clients := clients w;
     owner_profiles := owner_profiles w;
     outbox := outbox w; log := log w; io_script := io_script w;
     io_count := io_count w; clock_today := clock_today w; clock_now := clock_now w;
     clock_hour := clock_hour w; is_debug := is_debug w;
     schedulers := v; self_scheduler := self_scheduler w |}.

Definition set_self_scheduler (v : option nat) (w : World) : World :=
  {| subscriptions := subscriptions w; clients := clients w;
     owner_profiles := owner_profiles w;
     outbox := outbox w; log := log w; io_script := io_script w;
     io_count := io_count w; clock_today := clock_today w; clock_now := clock_now w;
     clock_hour := clock_hour w; is_debug := is_debug w;
     schedulers := schedulers w; self_scheduler := v |}.

(** ** Computations: state passing with exceptions *)

Inductive Result (A : Type) :=
| Returns (a : A)
| Raises (exc : exn).
Arguments Returns {A} a.
Arguments Raises {A} exc.

Definition M (A : Type) : Type := World -> Result A * World.

Definition ret {A} (a : A) : M A := fun w => (Returns a, w).

Definition raise {A} (exc : exn) : M A := fun w => (Raises exc, w).

Definition bind {A B} (m : M A) (k : A -> M B) : M B :=
  fun w =>
    match m w with
    | (Returns a, w') => k a w'
    | (Raises exc, w') => (Raises exc, w')
    end.

(** [try: m except Exception as exc: handler exc] *)
Definition try_except {A} (m : M A) (handler : exn -> M A) : M A :=
  fun w =>
    match m w with
    | (Returns a, w') => (Returns a, w')
    | (Raises exc, w') => handler exc w'
    end.

Definition gets {A} (f : World -> A) : M A := fun w => (Returns (f w), w).

Definition modify (f : World -> World) : M unit := fun w => (Returns tt, f w).

Declare Scope py_scope.
Delimit Scope py_scope with py.
Notation "'let*' x ':=' m 'in' k" := (bind m (fun x => k))
  (at level 10, x name, m at level 100, k at level 200) : py_scope.
Notation "'let*' ' p ':=' m 'in' k" := (bind m (fun p => k))
  (at level 10, p pattern, m at level 100, k at level 200) : py_scope.
Notation "'run' m 'then' k" := (bind m (fun _ => k))
  (at level 10, m at level 100, k at level 200) : py_scope.
Local Open Scope py_scope.

(** [for x in l: body x]; an exception leaving the body leaves the loop. *)
Fixpoint for_each {A} (body : A -> M unit) (l : list A) : M unit :=
  match l with
  | [] => ret tt
  | x :: rest => run body x then for_each body rest
  end.

(** A logging call appends its record. *)
Definition logger (r : LogRecord) : M unit :=
  modify (fun w => set_log (log w ++ [r]) w).

(** One HTTP round trip: the environment decides its outcome, and the
    count of round trips goes up by one. *)
Definition tick (w : World) : World := set_io_count (S (io_count w)) w.

Definition http : M Z :=
  fun w =>
    match io_script w (io_count w) with
    | Reply status_code => (Returns status_code, tick w)
    | Broken exc => (Raises exc, tick w)
    end.

(** ** The Supabase client ([app/db/supabase.py]) *)

(** The REST server.  A request that is answered with a status below 400 is
    served from the tables (a [PATCH] is applied and answers the updated
    rows); any other request leaves the tables alone.  Rows come back in
    table order.  Rows are held typed: [model_validate] does not fail. *)

Definition rest_get_subscriptions (business : string) : M (Z * list Subscription) :=
  let* status_code := http in
  if status_code <? 400
  then let* rows := gets subscriptions in
       ret (status_code,
            List.filter (fun s => String.eqb (business_id s) business) rows)
  else ret (status_code, []).

Definition rest_get_clients (business : string) : M (Z * list Client) :=
  let* status_code := http in
  if status_code <? 400
  then let* rows := gets clients in
       ret (status_code,
            List.filter (fun c => String.eqb (client_business_id c) business) rows)
  else ret (status_code, []).

(** [PATCH /subscriptions?id=eq.<id>] with body [{"reminder_sent_at": t}] *)
Definition set_reminder_sent (subscription_id : string) (t : datetime)
    (rows : list Subscription) : list Subscription :=
  map (fun s => if String.eqb (sub_id s) subscription_id
                then with_reminder_sent_at (Some t) s else s) rows.

Definition rest_patch_reminder_sent_at (subscription_id : string) (t : datetime)
    : M (Z * list Subscription) :=
  let* status_code := http in
  if status_code <? 400
  then run modify (fun w =>
             set_subscriptions (set_reminder_sent subscription_id t (subscriptions w)) w)
       then let* rows := gets subscriptions in
       ret (status_code,
            List.filter (fun s => String.eqb (sub_id s) subscription_id) rows)
  else ret (status_code, []).

(** [GET /owner_profiles?select=*&reminder_enabled=eq.true] *)
Definition rest_get_enabled_owner_profiles : M (Z * list (gmap string PyVal)) :=
  let* status_code := http in
  if status_code <? 400
  then let* rows := gets owner_profiles in
       ret (status_code,
            List.filter (fun r => match r !! "reminder_enabled" with
                                  | Some (PBool true) => true
                                  | _ => false
                                  end) rows)
  else ret (status_code, []).

Definition list_clients_for_business (business : string) : M (list Client) :=
  let* '(status_code, items) := rest_get_clients business in
  if status_code >=? 400
  then raise (SupabaseError "Supabase REST GET failed for 'clients'")
  else ret items.

Definition list_subscriptions_for_business (business : string) : M (list Subscription) :=
  let* '(status_code, items) := rest_get_subscriptions business in
  if status_code >=? 400
  then raise (SupabaseError "Supabase REST GET failed for 'subscriptions'")
  else ret items.

(** [date + timedelta(days=n)]: both the [timedelta] and the resulting date
    must be representable, else [OverflowError]. *)
Definition date_add_days (d : date) (n : Z) : M date :=
  if (Z.abs n <=? MAX_DELTA_DAYS) && (MINORDINAL <=? d + n) && (d + n <=? MAXORDINAL)
  then ret (d + n)
  else raise OverflowError.

Definition status_eqb (a b : SubscriptionStatus) : bool :=
  match a, b with
  | ACTIVE, ACTIVE | EXPIRED, EXPIRED | CANCELLED, CANCELLED | FROZEN, FROZEN => true
  | _, _ => false
  end.

Definition is_none {A} (o : option A) : bool :=
  match o with
  | None => true
  | Some _ => false
  end.

(** The list comprehension of [list_expiring_subscriptions]. *)
Definition expiring_within (today cutoff_date : date) (subs : list Subscription)
    : list Subscription :=
  List.filter
    (fun s => status_eqb (status s) ACTIVE
              && ((today <=? end_date s) && (end_date s <=? cutoff_date))
              && is_none (reminder_sent_at s))
    subs.

Definition list_expiring_subscriptions (business : string) (days_until : Z)
    : M (list Subscription) :=
  let* today := gets clock_today in
  let* cutoff_date := date_add_days today days_until in
  let* subs := list_subscriptions_for_business business in
  ret (expiring_within today cutoff_date subs).

Definition mark_reminder_sent (subscription_id : string) : M Subscription :=
  let* now := gets clock_now in
  let* '(status_code, updated_rows) := rest_patch_reminder_sent_at subscription_id now in
  if status_code >=? 400
  then raise (SupabaseError "Failed to mark reminder as sent")
  else
    match updated_rows with
    | [] => raise (SupabaseError "Subscription not found to update")
    | row :: _ => ret row
    end.

(** ** The reminder scheduler ([app/bot/scheduler.py]) *)

(** [bot.send_message]: a Telegram API call; the message is delivered when
    the call is answered with success. *)
Definition bot_send_message (chat : PyVal) (txt : list Line) (mode : string) : M unit :=
  let* status_code := http in
  if status_code >=? 400
  then raise TelegramAPIError
  else modify (fun w =>
         set_outbox
           (outbox w ++ [{| chat_id := chat; text := txt; parse_mode := mode |}]) w).

(** The list comprehension of [send_reminder_for_business]:
    [s.status == "active" and (s.end_date - today).days == days_until
     and s.reminder_sent_at is None]. *)
Definition expiring_today (today : date) (days_until : PyVal) (subs : list Subscription)
    : list Subscription :=
  List.filter
    (fun s => String.eqb (status_value (status s)) "active"
              && py_eq (PInt (end_date s - today)) days_until
              && is_none (reminder_sent_at s))
    subs.

(** [{c.id: c.full_name for c in clients}] *)
Definition client_map_of (cs : list Client) : gmap string string :=
  foldl (fun m c => <[client_ident c := full_name c]> m) ∅ cs.

Definition reminder_lines (days_until : PyVal) (client_map : gmap string string)
    (expiring : list Subscription) : list Line :=
  [LineTitle; LineExpireIn days_until; LineBlank]
  ++ map (fun sub =>
            LineItem (default "Unknown" (client_map !! client_id sub))
                     (end_date sub) (amount sub) (currency sub)) expiring
  ++ [LineBlank; LineFooter].

(** The body of the marking loop. *)
Definition mark_one (sub : Subscription) : M unit :=
  try_except
    (run mark_reminder_sent (sub_id sub)
     then logger (LogMarkedReminderSent (sub_id sub)))
    (fun exc => logger (LogFailedToMark (sub_id sub) exc)).

Definition send_reminder_for_business (business : string)
    (owner_telegram_id : PyVal) (days_until : PyVal) : M unit :=
  try_except
    (let* subs := list_subscriptions_for_business business in
     let* today := gets clock_today in
     let expiring := expiring_today today days_until subs in
     match expiring with
     | [] => logger (LogNoRemindersDue business)
     | _ :: _ =>
         let* cs := list_clients_for_business business in
         let client_map := client_map_of cs in
         let lines := reminder_lines days_until client_map expiring in
         run bot_send_message owner_telegram_id lines "HTML"
         then for_each mark_one expiring
     end)
    (fun exc => logger (LogErrorSendingReminder exc)).

Section HourlySweep.

(** [supabase.get_owner_by_telegram] makes two single-row lookups and
    validates both rows; it answers [None], a pair, or raises.  The sweep
    is defined over any such lookup, and over any per-owner routine in
    the place of [self.send_reminder_for_business]. *)
Variable get_owner_by_telegram : PyVal -> M (option (OwnerProfile * Business)).
Variable reminder_routine : string -> PyVal -> PyVal -> M unit.

(** The body of [for owner_row in owners]; [continue] ends the body. *)
Definition sweep_owner (current_hour : Z) (owner_row : gmap string PyVal) : M unit :=
  let reminder_hour := dict_get owner_row "reminder_hour" (PInt 10) in
  if negb (py_eq reminder_hour (PInt current_hour)) then ret tt
  else
    let telegram_user_id := dict_get owner_row "telegram_user_id" PNone in
    let days_before := dict_get owner_row "reminder_days_before" (PInt 7) in
    if negb (truthy telegram_user_id) then ret tt
    else
      try_except
        (let* owner_data := get_owner_by_telegram telegram_user_id in
         match owner_data with
         | None => ret tt
         | Some (owner, business) =>
             reminder_routine (business_ident business) telegram_user_id days_before
         end)
        (fun exc => logger (LogErrorProcessingOwner telegram_user_id exc)).

Definition hourly_reminders : M unit :=
  let* debug := gets is_debug in
  let* current_hour := gets clock_hour in
  run (if debug then logger (LogRunningHourlyCheck current_hour) else ret tt)
  then
  try_except
    (let* '(status_code, owners) := rest_get_enabled_owner_profiles in
     if status_code >=? 400
     then logger LogFailedToFetchOwners
     else run for_each (sweep_owner current_hour) owners
          then logger LogHourlyCompleted)
    (fun exc => logger (LogErrorDuringHourlyCheck exc)).

End HourlySweep.

(** The sweep of the source calls the routine of the same class. *)
Definition _send_hourly_reminders
    (get_owner_by_telegram : PyVal -> M (option (OwnerProfile * Business))) : M unit :=
  hourly_reminders get_owner_by_telegram send_reminder_for_business.

(** *** Lifecycle *)

(** [AsyncIOScheduler()] allocates a stopped scheduler without jobs. *)
Definition new_AsyncIOScheduler : M nat :=
  fun w =>
    (Returns (length (schedulers w)),
     set_schedulers (schedulers w ++ [{| state := STATE_STOPPED; jobs := [] |}]) w).

Definition update_scheduler (addr : nat) (f : AsyncIOScheduler -> AsyncIOScheduler)
    : M unit :=
  modify (fun w => set_schedulers (alter f addr (schedulers w)) w).

(** [scheduler.add_job(func, trigger, id=..., name=...)]; an id already in
    use is a [ConflictingIdError]. *)
Definition add_job (addr : nat) (j : Job) : M unit :=
  let* heap := gets schedulers in
  match heap !! addr with
  | Some s =>
      if existsb (fun k => String.eqb (job_id k) (job_id j)) (jobs s)
      then raise (OtherException "ConflictingIdError")
      else update_scheduler addr
             (fun s => {| state := state s; jobs := jobs s ++ [j] |})
  | None => raise (OtherException "AttributeError")
  end.

(** [scheduler.start()]; starting a running scheduler is a
    [SchedulerAlreadyRunningError]. *)
Definition scheduler_start (addr : nat) : M unit :=
  let* heap := gets schedulers in
  match heap !! addr with
  | Some {| state := STATE_STOPPED |} =>
      update_scheduler addr (fun s => {| state := STATE_RUNNING; jobs := jobs s |})
  | Some {| state := STATE_RUNNING |} =>
      raise (OtherException "SchedulerAlreadyRunningError")
  | None => raise (OtherException "AttributeError")
  end.

(** [scheduler.shutdown()] of an [AsyncIOScheduler] is posted to the event
    loop: the caller gets [None] back, and a running scheduler is stopped
    by the posted call. *)
Definition scheduler_shutdown (addr : nat) : M unit :=
  update_scheduler addr (fun s => {| state := STATE_STOPPED; jobs := jobs s |}).

Definition hourly_job : Job :=
  {| job_id := "hourly_reminders"; job_name := "Hourly Subscription Reminders" |}.

Definition start : M unit :=
  let* addr := new_AsyncIOScheduler in
  run modify (set_self_scheduler (Some addr))
  then run add_job addr hourly_job
  then run scheduler_start addr
  then logger LogSchedulerStarted.

Definition stop : M unit :=
  let* this := gets self_scheduler in
  match this with
  | Some addr =>
      run scheduler_shutdown addr
      then logger LogSchedulerStopped
  | None => ret tt
  end.

(** The timer registrations the event loop holds: the jobs of the running
    schedulers. *)
Definition timer_registrations (w : World) : list Job :=
  concat (map jobs (List.filter (fun s => match state s with
                                          | STATE_RUNNING => true
                                          | STATE_STOPPED => false
                                          end) (schedulers w))).

(** ** Observations on runs *)

(** What a computation does not touch: the environment's script, the clock,
    the settings and the tables other than [subscriptions]. *)
Definition same_surroundings (w w' : World) : Prop :=
  io_script w' = io_script w
  /\ clock_today w' = clock_today w
  /\ clock_now w' = clock_now w
  /\ clock_hour w' = clock_hour w
  /\ is_debug w' = is_debug w
  /\ clients w' = clients w
  /\ owner_profiles w' = owner_profiles w.

(** The subscriptions a marking attempt was logged for, oldest first. *)
Definition mark_attempt (r : LogRecord) : option string :=
  match r with
  | LogMarkedReminderSent subscription => Some subscription
  | LogFailedToMark subscription _ => Some subscription
  | _ => None
  end.

Definition mark_attempts (records : list LogRecord) : list string :=
  omap mark_attempt records.

(** The table [subscriptions] after the marking loop went over [l], when
    its first request is round trip [n] of [script]: a request that is
    answered with success marks the rows of its subscription. *)
Fixpoint marked_rows (script : nat -> Outcome) (n : nat) (t : datetime)
    (l : list Subscription) (rows : list Subscription) : list Subscription :=
  match l with
  | [] => rows
  | s :: rest =>
      marked_rows script (S n) t rest
        (if outcome_ok (script n) then set_reminder_sent (sub_id s) t rows else rows)
  end.

(** The rows of a business, as [list_subscriptions_for_business] answers
    them. *)
Definition business_rows (business : string) (w : World) : list Subscription :=
  List.filter (fun s => String.eqb (business_id s) business) (subscriptions w).

(** The due set of a business in a world. *)
Definition due_now (business : string) (days_until : PyVal) (w : World)
    : list Subscription :=
  expiring_today (clock_today w) days_until (business_rows business w).

(** The five ways a call of [send_reminder_for_business] can go, by the
    outcomes of its round trips: loading the subscriptions, loading the
    clients, sending the message, and one marking request per due
    subscription.  [w] is the world before the call, the index the world
    after it. *)
Inductive routine_run (business : string) (chat days_until : PyVal) (w : World)
    : World -> Prop :=
| run_load_failed w' exc :
    outcome_ok (io_script w (io_count w)) = false ->
    subscriptions w' = subscriptions w ->
    outbox w' = outbox w ->
    io_count w' = S (io_count w) ->
    log w' = log w ++ [LogErrorSendingReminder exc] ->
    routine_run business chat days_until w w'
| run_nothing_due w' :
    outcome_ok (io_script w (io_count w)) = true ->
    due_now business days_until w = [] ->
    subscriptions w' = subscriptions w ->
    outbox w' = outbox w ->
    io_count w' = S (io_count w) ->
    log w' = log w ++ [LogNoRemindersDue business] ->
    routine_run business chat days_until w w'
| run_clients_failed w' exc :
    outcome_ok (io_script w (io_count w)) = true ->
    due_now business days_until w <> [] ->
    outcome_ok (io_script w (S (io_count w))) = false ->
    subscriptions w' = subscriptions w ->
    outbox w' = outbox w ->
    io_count w' = S (S (io_count w)) ->
    log w' = log w ++ [LogErrorSendingReminder exc] ->
    routine_run business chat days_until w w'
| run_send_failed w' exc :
    outcome_ok (io_script w (io_count w)) = true ->
    due_now business days_until w <> [] ->
    outcome_ok (io_script w (S (io_count w))) = true ->
    outcome_ok (io_script w (S (S (io_count w)))) = false ->
    subscriptions w' = subscriptions w ->
    outbox w' = outbox w ->
    io_count w' = S (S (S (io_count w))) ->
    log w' = log w ++ [LogErrorSendingReminder exc] ->
    routine_run business chat days_until w w'
| run_sent w' :
    outcome_ok (io_script w (io_count w)) = true ->
    due_now business days_until w <> [] ->
    outcome_ok (io_script w (S (io_count w))) = true ->
    outcome_ok (io_script w (S (S (io_count w)))) = true ->
    subscriptions w' =
      marked_rows (io_script w) (S (S (S (io_count w)))) (clock_now w)
        (due_now business days_until w) (subscriptions w) ->
    outbox w' =
      outbox w ++ [{| chat_id := chat;
                      text := reminder_lines days_until
                                (client_map_of
                                   (List.filter
                                      (fun c =>
                                         String.eqb (client_business_id c) business)
                                      (clients w)))
                                (due_now business days_until w);
                      parse_mode := "HTML" |}] ->
    io_count w' = (3 + io_count w + length (due_now business days_until w))%nat ->
    mark_attempts (log w') =
      mark_attempts (log w) ++ map sub_id (due_now business days_until w) ->
    routine_run business chat days_until w w'.

(** ** More of the Supabase client *)

Definition with_status (st : SubscriptionStatus) (s : Subscription) : Subscription :=
  {| sub_id := sub_id s; business_id := business_id s; client_id := client_id s;
     amount := amount s; currency := currency s; start_date := start_date s;
     end_date := end_date s; status := st;
     reminder_sent_at := reminder_sent_at s; created_at := created_at s |}.

(** The body [{"end_date": ..., "status": "active"}] of [renew_subscription]. *)
Definition with_end_date_active (ends : date) (s : Subscription) : Subscription :=
  {| sub_id := sub_id s; business_id := business_id s; client_id := client_id s;
     amount := amount s; currency := currency s; start_date := start_date s;
     end_date := ends; status := ACTIVE;
     reminder_sent_at := reminder_sent_at s; created_at := created_at s |}.

(** The rows of a table after [PATCH ...?id=eq.<id>]: the body is applied
    to the rows of that id. *)
Definition patch_rows (subscription_id : string) (body : Subscription -> Subscription)
    (rows : list Subscription) : list Subscription :=
  map (fun s => if String.eqb (sub_id s) subscription_id then body s else s) rows.

(** [PATCH /subscriptions?id=eq.<id>] with [Prefer: return=representation] *)
Definition rest_patch_subscriptions (subscription_id : string)
    (body : Subscription -> Subscription) : M (Z * list Subscription) :=
  let* status_code := http in
  if status_code <? 400
  then run modify (fun w =>
             set_subscriptions (patch_rows subscription_id body (subscriptions w)) w)
       then let* rows := gets subscriptions in
       ret (status_code,
            List.filter (fun s => String.eqb (sub_id s) subscription_id) rows)
  else ret (status_code, []).

(** [GET /subscriptions?id=eq.<id>&select=*&limit=1] *)
Definition rest_get_subscription_by_id (subscription_id : string)
    : M (Z * list Subscription) :=
  let* status_code := http in
  if status_code <? 400
  then let* rows := gets subscriptions in
       ret (status_code,
            firstn 1 (List.filter (fun s => String.eqb (sub_id s) subscription_id) rows))
  else ret (status_code, []).

Definition update_subscription_status (subscription_id : string)
    (new_status : SubscriptionStatus) : M Subscription :=
  let* '(status_code, items) :=
    rest_patch_subscriptions subscription_id (with_status new_status) in
  if status_code >=? 400
  then raise (SupabaseError "Failed to update subscription status")
  else
    match items with
    | [] => raise (SupabaseError "Subscription not found")
    | row :: _ => ret row
    end.

(** The callers hand [renew_subscription] a [date]; [str] of it is what the
    server reads back as the same date. *)
Definition renew_subscription (subscription_id : string) (new_end_date : date)
    : M Subscription :=
  let* '(status_code, items) :=
    rest_patch_subscriptions subscription_id (with_end_date_active new_end_date) in
  if status_code >=? 400
  then raise (SupabaseError "Failed to renew subscription")
  else
    match items with
    | [] => raise (SupabaseError "Subscription not found")
    | row :: _ => ret row
    end.

Definition extend_subscription (subscription_id : string) (additional_days : Z)
    : M Subscription :=
  let* '(status_code, items) := rest_get_subscription_by_id subscription_id in
  if status_code >=? 400
  then raise (SupabaseError "Subscription not found")
  else
    match items with
    | [] => raise (SupabaseError "Subscription not found")
    | current_sub :: _ =>
        let current_end := end_date current_sub in
        let* new_end := date_add_days current_end additional_days in
        renew_subscription subscription_id new_end
    end.

(** The members of [SubscriptionStatus], in the order of the class. *)
Definition ALL_STATUSES : list SubscriptionStatus := [ACTIVE; EXPIRED; CANCELLED; FROZEN].

(** [Counter(keys)]: the members of a [str] enumeration hash and compare as
    their values, so the keys are the values. *)
Definition Counter (keys : list string) : gmap string nat :=
  foldl (fun counter k => <[k := S (default 0%nat (counter !! k))]> counter) ∅ keys.

(** The answer is a [dict] with one entry per status, in the order of
    [SubscriptionStatus]. *)
Definition get_subscription_stats_for_business (business : string)
    : M (list (SubscriptionStatus * nat)) :=
  let* subs := list_subscriptions_for_business business in
  let counter := Counter (map (fun s => status_value (status s)) subs) in
  ret (map (fun st => (st, default 0%nat (counter !! status_value st))) ALL_STATUSES).

(** *** Reminder settings *)

Definition set_owner_profiles (v : list (gmap string PyVal)) (w : World) : World :=
  {| subscriptions := subscriptions w; clients := clients w; owner_profiles := v;
     outbox := outbox w; log := log w; io_script := io_script w;
     io_count := io_count w; clock_today := clock_today w; clock_now := clock_now w;
     clock_hour := clock_hour w; is_debug := is_debug w;
     schedulers := schedulers w; self_scheduler := self_scheduler w |}.

(** The [payload] dictionary of [update_reminder_settings]: one key per
    argument that is not [None]. *)
Definition settings_payload (enabled : option bool) (hour : option Z)
    (days_before : option Z) (tz : option string) : gmap string PyVal :=
  let payload : gmap string PyVal := ∅ in
  let payload := match enabled with
                 | Some b => <["reminder_enabled" := PBool b]> payload
                 | None => payload
                 end in
  let payload := match hour with
                 | Some h => <["reminder_hour" := PInt h]> payload
                 | None => payload
                 end in
  let payload := match days_before with
                 | Some d => <["reminder_days_before" := PInt d]> payload
                 | None => payload
                 end in
  match tz with
  | Some z => <["timezone" := PStr z]> payload
  | None => payload
  end.

Definition owned_by (owner : string) (row : gmap string PyVal) : bool :=
  match row !! "user_id" with
  | Some (PStr u) => String.eqb u owner
  | _ => false
  end.

(** [PATCH /owner_profiles?user_id=eq.<owner>]: the keys of the payload
    replace those of the rows of that owner. *)
Definition rest_patch_owner_profiles (owner : string) (payload : gmap string PyVal)
    : M (Z * list (gmap string PyVal)) :=
  let* status_code := http in
  if status_code <? 400
  then run modify (fun w =>
             set_owner_profiles
               (map (fun row => if owned_by owner row then payload ∪ row else row)
                  (owner_profiles w)) w)
       then let* rows := gets owner_profiles in
       ret (status_code, List.filter (owned_by owner) rows)
  else ret (status_code, []).

Section ReminderSettings.

(** [OwnerProfile.model_validate]: the validation of a row by pydantic,
    which answers the profile or raises. *)
Variable OwnerProfile_model_validate : gmap string PyVal -> Result OwnerProfile.

Definition update_reminder_settings (owner : string) (enabled : option bool)
    (hour : option Z) (days_before : option Z) (tz : option string) : M OwnerProfile :=
  let payload := settings_payload enabled hour days_before tz in
  if decide (payload = ∅)
  then raise (OtherException "ValueError")
  else
    let* '(status_code, updated_rows) := rest_patch_owner_profiles owner payload in
    if status_code >=? 400
    then raise (SupabaseError "Failed to update reminder settings")
    else
      match updated_rows with
      | [] => raise (SupabaseError "No owner found to update")
      | row :: _ => fun w => (OwnerProfile_model_validate row, w)
      end.

End ReminderSettings.

(** ** The manual triggers ([app/bot/handlers/reminders.py]) *)

(** The bot a [SubscriptionReminderScheduler] is built with. *)
Definition Bot := string.

Record SubscriptionReminderScheduler := {
  bot : Bot
}.

(** The texts of the [message.answer] calls of the handlers. *)
Inductive Answer :=
| AnswerSendStartFirst
| AnswerCannotIdentifyYou
| AnswerReminderFailed.

(** The [logger.exception] calls of the handlers. *)
Inductive HandlerLogRecord :=
| LogRemindError (exc : exn)
| LogRemind3Error (exc : exn).

(** An incoming update: [message.from_user.id], when there is a user. *)
Record IncomingMessage := {
  from_user : option Z
}.

(** What the handlers run in: the world of the scheduler, the answers given
    to the user, the records of the handlers' logger, and the module
    global [_scheduler]. *)
Record Session := {
  world : World;
  answers : list Answer;
  handler_log : list HandlerLogRecord;
  _scheduler : option SubscriptionReminderScheduler
}.

Definition H (A : Type) : Type := Session -> Result A * Session.

Definition h_bind {A B} (m : H A) (k : A -> H B) : H B :=
  fun ss =>
    match m ss with
    | (Returns a, ss') => k a ss'
    | (Raises exc, ss') => (Raises exc, ss')
    end.

Definition h_try_except {A} (m : H A) (handler : exn -> H A) : H A :=
  fun ss =>
    match m ss with
    | (Returns a, ss') => (Returns a, ss')
    | (Raises exc, ss') => handler exc ss'
    end.

(** A computation of the scheduler, run inside a handler. *)
Definition lift {A} (m : M A) : H A :=
  fun ss =>
    let (r, w') := m (world ss) in
    (r, {| world := w'; answers := answers ss; handler_log := handler_log ss;
           _scheduler := _scheduler ss |}).

(** [get_reminder_scheduler(bot)] *)
Definition get_reminder_scheduler (b : option Bot) : H SubscriptionReminderScheduler :=
  fun ss =>
    match _scheduler ss with
    | None =>
        match b with
        | None => (Raises (OtherException "RuntimeError"), ss)
        | Some b' =>
            (Returns {| bot := b' |},
             {| world := world ss; answers := answers ss;
                handler_log := handler_log ss;
                _scheduler := Some {| bot := b' |} |})
        end
    | Some s => (Returns s, ss)
    end.

(** [message.answer(text)]: a Telegram API call; the answer is given when
    the call is answered with success. *)
Definition message_answer (a : Answer) : H unit :=
  h_bind (lift http)
    (fun status_code =>
       if status_code >=? 400
       then fun ss => (Raises TelegramAPIError, ss)
       else fun ss =>
              (Returns tt,
               {| world := world ss; answers := answers ss ++ [a];
                  handler_log := handler_log ss; _scheduler := _scheduler ss |})).

Definition handler_logger (r : HandlerLogRecord) : H unit :=
  fun ss =>
    (Returns tt,
     {| world := world ss; answers := answers ss;
        handler_log := handler_log ss ++ [r]; _scheduler := _scheduler ss |}).

(** The two handlers differ in the lead time and in the text they log. *)
Definition remind_handler (days_until : Z) (record : exn -> HandlerLogRecord)
    (message : IncomingMessage) (business : option Business) : H unit :=
  match business with
  | None => message_answer AnswerSendStartFirst
  | Some b =>
      match from_user message with
      | None => message_answer AnswerCannotIdentifyYou
      | Some user =>
          h_try_except
            (h_bind (get_reminder_scheduler None)
               (fun scheduler =>
                  lift (send_reminder_for_business (business_ident b)
                          (PInt user) (PInt days_until))))
            (fun exc =>
               h_bind (handler_logger (record exc))
                 (fun _ => message_answer AnswerReminderFailed))
      end
  end.

Definition cmd_remind : IncomingMessage -> option Business -> H unit :=
  remind_handler 7 LogRemindError.

Definition cmd_remind_3_days : IncomingMessage -> option Business -> H unit :=
  remind_handler 3 LogRemind3Error.

(** A session in which the world was replaced. *)
Definition with_world (w : World) (ss : Session) : Session :=
  {| world := w; answers := answers ss; handler_log := handler_log ss;
     _scheduler := _scheduler ss |}.

(** ** The owners a sweep has to process *)

(** The two tests of the loop body that end in [continue]. *)
Definition owner_is_due (current_hour : Z) (owner_row : gmap string PyVal) : bool :=
  py_eq (dict_get owner_row "reminder_hour" (PInt 10)) (PInt current_hour)
  && truthy (dict_get owner_row "telegram_user_id" PNone).

(** * Worked inputs *)

Module Examples.

Definition mk_sub (id business client : string) (ends : date)
    (st : SubscriptionStatus) (sent : option datetime) : Subscription :=
  {| sub_id := id; business_id := business; client_id := client;
     amount := "1500.00"; currency := "RUB"; start_date := ends - 30;
     end_date := ends; status := st; reminder_sent_at := sent;
     created_at := 0 |}.

Definition today0 : date := 739000.

Definition anna : Client :=
  {| client_ident := "c1"; client_business_id := "gym"; full_name := "Anna";
     phone := "+70000000001"; client_created_at := 0 |}.

(** A world with the given subscriptions and HTTP outcomes, at [today0],
    ten o'clock. *)
Definition world_of (subs : list Subscription) (script : nat -> Outcome) : World :=
  {| subscriptions := subs; clients := [anna]; owner_profiles := [];
     outbox := []; log := []; io_script := script; io_count := 0;
     clock_today := today0; clock_now := 1000; clock_hour := 10;
     is_debug := false; schedulers := []; self_scheduler := None |}.

Definition always_ok : nat -> Outcome := fun _ => Reply 200.

(** The n-th round trip breaks, the others succeed. *)
Definition breaks_at (n : nat) : nat -> Outcome :=
  fun i => if Nat.eqb i n then Broken (OtherException "ConnectError") else Reply 200.

Definition in_a_week : Subscription := mk_sub "s1" "gym" "c1" (today0 + 7) ACTIVE None.
Definition in_a_week' : Subscription := mk_sub "s2" "gym" "c9" (today0 + 7) ACTIVE None.
Definition tomorrow : Subscription := mk_sub "s3" "gym" "c1" (today0 + 1) ACTIVE None.

(** Owner rows of the table [owner_profiles]. *)
Definition owner_row_of (telegram_user_id hour : Z) : gmap string PyVal :=
  <["telegram_user_id" := PInt telegram_user_id]>
    (<["reminder_hour" := PInt hour]>
       (<["reminder_days_before" := PInt 7]>
          (<["reminder_enabled" := PBool true]> ∅))).

(** A row with neither [reminder_hour] nor [reminder_days_before]. *)
Definition bare_owner_row (telegram_user_id : Z) : gmap string PyVal :=
  <["telegram_user_id" := PInt telegram_user_id]>
    (<["reminder_enabled" := PBool true]> ∅).

Definition profile_of (telegram_user_id : Z) : OwnerProfile :=
  {| user_id := "u"; profile_telegram_user_id := telegram_user_id;
     profile_full_name := None; reminder_enabled := true; reminder_hour := 10;
     reminder_days_before := 7; timezone := "Europe/Moscow";
     profile_created_at := 0 |}.

Definition gym : Business :=
  {| business_ident := "gym"; owner_id := "u"; business_name := "Gym";
     business_created_at := 0 |}.

(** An owner lookup that fails for the owner 1 and finds the business
    [gym] for every other owner. *)
Definition lookup_failing_for_1 (telegram_user_id : PyVal)
    : M (option (OwnerProfile * Business)) :=
  if py_eq telegram_user_id (PInt 1)
  then raise (OtherException "RuntimeError")
  else ret (Some (profile_of 2, gym)).

(** The world of [world_of] with the given owner rows. *)
Definition world_with_owners (owners : list (gmap string PyVal))
    (subs : list Subscription) (script : nat -> Outcome) : World :=
  {| subscriptions := subs; clients := [anna]; owner_profiles := owners;
     outbox := []; log := []; io_script := script; io_count := 0;
     clock_today := today0; clock_now := 1000; clock_hour := 10;
     is_debug := false; schedulers := []; self_scheduler := None |}.

End Examples.

(** Further inputs, for the rest of the client and for the handlers. *)
Module Cases.

(** A subscription of another business, due in a week. *)
Definition spa_sub : Subscription :=
  Examples.mk_sub "s9" "spa" "c5" (Examples.today0 + 7) ACTIVE None.

(** A subscription of the gym whose reminder was sent. *)
Definition reminded : Subscription :=
  Examples.mk_sub "s7" "gym" "c1" (Examples.today0 + 7) ACTIVE (Some 500).

Definition cancelled : Subscription :=
  Examples.mk_sub "s5" "gym" "c1" (Examples.today0 + 3) CANCELLED None.

(** The gym has one subscription of each kind, the spa one. *)
Definition two_businesses : list Subscription :=
  [Examples.in_a_week; reminded; cancelled; spa_sub].

(** An owner row with its [user_id]. *)
Definition profile_row (user : string) (telegram_user_id : Z) : gmap string PyVal :=
  <["user_id" := PStr user]>
    (<["telegram_user_id" := PInt telegram_user_id]>
       (<["reminder_enabled" := PBool true]> ∅)).

(** A validation that accepts every row. *)
Definition accept_all (row : gmap string PyVal) : Result OwnerProfile :=
  Returns (Examples.profile_of 2).

Definition session_of (w : World) (s : option SubscriptionReminderScheduler) : Session :=
  {| world := w; answers := []; handler_log := []; _scheduler := s |}.

Definition from_user_5 : IncomingMessage := {| from_user := Some 5 |}.

Definition the_scheduler : SubscriptionReminderScheduler := {| bot := "bot" |}.

End Cases.

(** * Properties *)

(** ** The due-set filter *)

Lemma status_value_active (st : SubscriptionStatus) :
  String.eqb (status_value st) "active" = true <-> st = ACTIVE.
Proof. destruct st; simpl; split; intros H; congruence. Qed.

Lemma status_eqb_active (st : SubscriptionStatus) :
  status_eqb st ACTIVE = true <-> st = ACTIVE.
Proof. destruct st; simpl; split; intros H; congruence. Qed.

Lemma is_none_true {A} (o : option A) : is_none o = true <-> o = None.
Proof. destruct o; simpl; split; intros H; congruence. Qed.

Lemma py_eq_int (x y : Z) : py_eq (PInt x) (PInt y) = true <-> x = y.
Proof. simpl. apply Z.eqb_eq. Qed.

Lemma py_eq_int_eqb (x y : Z) : py_eq (PInt x) (PInt y) = (x =? y).
Proof. reflexivity. Qed.

(** Membership in the list the inline comprehension builds. *)
Lemma expiring_today_In (today : date) (days_until : PyVal)
    (subs : list Subscription) (s : Subscription) :
  In s (expiring_today today days_until subs) <->
  In s subs /\ status s = ACTIVE
  /\ py_eq (PInt (end_date s - today)) days_until = true
  /\ reminder_sent_at s = None.
Proof.
  unfold expiring_today. rewrite filter_In, !andb_true_iff.
  rewrite status_value_active, is_none_true. tauto.
Qed.

Lemma expiring_within_In (today cutoff : date)
    (subs : list Subscription) (s : Subscription) :
  In s (expiring_within today cutoff subs) <->
  In s subs /\ status s = ACTIVE
  /\ (today <= end_date s <= cutoff)
  /\ reminder_sent_at s = None.
Proof.
  unfold expiring_within. rewrite filter_In, !andb_true_iff.
  rewrite status_eqb_active, is_none_true, !Z.leb_le. tauto.
Qed.

Lemma business_rows_In (business : string) (rows : list Subscription) (s : Subscription) :
  In s (List.filter (fun r => String.eqb (business_id r) business) rows) <->
  In s rows /\ business_id s = business.
Proof. rewrite filter_In, String.eqb_eq. tauto. Qed.

(** C1, as amended: the due set that [send_reminder_for_business] computes
    from the rows of a business holds exactly the subscriptions of that
    business that are Active, have no reminder-sent timestamp and end
    exactly [lead_days] days after today. *)
Theorem due_set_is_exact_day (rows : list Subscription) (business : string)
    (today : date) (lead_days : Z) (s : Subscription) :
  In s (expiring_today today (PInt lead_days)
          (List.filter (fun r => String.eqb (business_id r) business) rows)) <->
  In s rows /\ business_id s = business /\ status s = ACTIVE
  /\ reminder_sent_at s = None /\ end_date s = today + lead_days.
Proof.
  rewrite expiring_today_In, business_rows_In, py_eq_int.
  split; intros H; repeat split; try tauto; lia.
Qed.

(** C1, as stated, fails: a subscription that ends tomorrow lies in the
    range [today <= end_date <= today + 7] and is left out of the due set
    for a lead time of 7 days. *)
Lemma due_set_range_counterexample :
  let s := Examples.tomorrow in
  let today := Examples.today0 in
  (In s [s] /\ business_id s = "gym" /\ status s = ACTIVE
   /\ reminder_sent_at s = None /\ today <= end_date s <= today + 7)
  /\ ~ In s (expiring_today today (PInt 7)
               (List.filter (fun r => String.eqb (business_id r) "gym") [s])).
Proof.
  simpl. split.
  - repeat split; auto; vm_compute; congruence.
  - intros H. exact H.
Qed.

(** C8: a subscription whose status is not Active is never in the due set,
    whatever its end date and its reminder-sent timestamp. *)
Theorem inactive_never_due (today : date) (days_until : PyVal)
    (subs : list Subscription) (s : Subscription) :
  status s <> ACTIVE -> ~ In s (expiring_today today days_until subs).
Proof.
  intros Hst Hin. apply expiring_today_In in Hin. tauto.
Qed.

Lemma inactive_never_due_witness :
  let s := Examples.mk_sub "s4" "gym" "c1" (Examples.today0 + 7) FROZEN None in
  ~ In s (expiring_today Examples.today0 (PInt 7) [s; Examples.in_a_week]).
Proof.
  apply (inactive_never_due Examples.today0 (PInt 7)
           [Examples.mk_sub "s4" "gym" "c1" (Examples.today0 + 7) FROZEN None;
            Examples.in_a_week]).
  simpl. discriminate.
Defined.

(** C9, as amended: the inline filter of [send_reminder_for_business]
    selects, among the subscriptions the filter of
    [list_expiring_subscriptions] selects for the same day and the same
    positive lead time, exactly those that end on the last day of the
    window. *)
Theorem inline_filter_refines_expiring_within (subs : list Subscription)
    (today : date) (days_until : Z) :
  0 < days_until ->
  expiring_today today (PInt days_until) subs =
  List.filter (fun s => end_date s =? today + days_until)
    (expiring_within today (today + days_until) subs).
Proof.
  intros Hpos. unfold expiring_today, expiring_within.
  induction subs as [|s subs IH]; [reflexivity|].
  cbn [List.filter]. rewrite IH. clear IH.
  rewrite py_eq_int_eqb.
  destruct (status s); cbn [status_value status_eqb String.eqb Ascii.eqb Bool.eqb andb];
    try reflexivity.
  destruct (reminder_sent_at s); cbn [is_none].
  - rewrite !andb_false_r. reflexivity.
  - rewrite !andb_true_r.
    destruct (Z.eqb_spec (end_date s - today) days_until) as [E|E].
    + assert (Hle1 : (today <=? end_date s) = true) by (apply Z.leb_le; lia).
      assert (Hle2 : (end_date s <=? today + days_until) = true) by (apply Z.leb_le; lia).
      assert (He : (end_date s =? today + days_until) = true) by (apply Z.eqb_eq; lia).
      rewrite Hle1, Hle2. cbn [andb List.filter]. rewrite He. reflexivity.
    + assert (He : (end_date s =? today + days_until) = false) by (apply Z.eqb_neq; lia).
      destruct ((today <=? end_date s) && (end_date s <=? today + days_until));
        cbn [List.filter]; [rewrite He|]; reflexivity.
Qed.

Lemma inline_filter_refines_expiring_within_witness :
  expiring_today Examples.today0 (PInt 7) [Examples.in_a_week; Examples.tomorrow] =
  List.filter (fun s => end_date s =? Examples.today0 + 7)
    (expiring_within Examples.today0 (Examples.today0 + 7)
       [Examples.in_a_week; Examples.tomorrow]).
Proof.
  apply (inline_filter_refines_expiring_within
           [Examples.in_a_week; Examples.tomorrow] Examples.today0 7).
  lia.
Defined.

(** C9, as stated, fails: for a subscription that ends tomorrow and a lead
    time of 7 days the filter of [list_expiring_subscriptions] selects it
    and the inline filter does not. *)
Lemma filters_differ_counterexample :
  expiring_within Examples.today0 (Examples.today0 + 7) [Examples.tomorrow]
    = [Examples.tomorrow]
  /\ expiring_today Examples.today0 (PInt 7) [Examples.tomorrow] = [].
Proof. split; reflexivity. Qed.

(** ** Round trips, one at a time *)

Lemma geb_400 (c : Z) : (c >=? 400) = negb (c <? 400).
Proof. rewrite Z.geb_leb, Z.ltb_antisym, negb_involutive. reflexivity. Qed.

Lemma same_surroundings_refl (w : World) : same_surroundings w w.
Proof. unfold same_surroundings. tauto. Qed.

Lemma same_surroundings_trans (w1 w2 w3 : World) :
  same_surroundings w1 w2 -> same_surroundings w2 w3 -> same_surroundings w1 w3.
Proof.
  unfold same_surroundings. intros H1 H2.
  destruct H1 as (?&?&?&?&?&?&?), H2 as (?&?&?&?&?&?&?).
  repeat split; congruence.
Qed.

Lemma list_subscriptions_ok (w : World) (business : string) :
  outcome_ok (io_script w (io_count w)) = true ->
  list_subscriptions_for_business business w
  = (Returns (business_rows business w), tick w).
Proof.
  intros Hok.
  unfold list_subscriptions_for_business, rest_get_subscriptions, bind, http.
  destruct (io_script w (io_count w)) as [c|exc]; simpl in Hok; [|discriminate].
  rewrite Hok. unfold gets, ret. cbn beta iota.
  rewrite geb_400, Hok. reflexivity.
Qed.

Lemma list_subscriptions_failed (w : World) (business : string) :
  outcome_ok (io_script w (io_count w)) = false ->
  exists exc, list_subscriptions_for_business business w = (Raises exc, tick w).
Proof.
  intros Hok.
  unfold list_subscriptions_for_business, rest_get_subscriptions, bind, http.
  destruct (io_script w (io_count w)) as [c|exc]; simpl in Hok.
  - rewrite Hok. unfold ret. cbn beta iota. rewrite geb_400, Hok.
    eexists. reflexivity.
  - eexists. reflexivity.
Qed.

(** [list_expiring_subscriptions] answers the rows its filter selects for
    the window that ends [days_until] days from today, as long as that day
    is a date. *)
Lemma list_expiring_subscriptions_ok (w : World) (business : string) (days_until : Z) :
  Z.abs days_until <= MAX_DELTA_DAYS ->
  MINORDINAL <= clock_today w + days_until <= MAXORDINAL ->
  outcome_ok (io_script w (io_count w)) = true ->
  list_expiring_subscriptions business days_until w
  = (Returns (expiring_within (clock_today w) (clock_today w + days_until)
                (business_rows business w)),
     tick w).
Proof.
  intros Hdelta [Hlo Hhi] Hok.
  unfold list_expiring_subscriptions, bind at 1, gets.
  unfold bind at 1, date_add_days.
  apply Z.leb_le in Hdelta, Hlo, Hhi. rewrite Hdelta, Hlo, Hhi.
  cbn [andb]. unfold ret at 1. unfold bind.
  rewrite (list_subscriptions_ok w business Hok). reflexivity.
Qed.

Lemma list_clients_ok (w : World) (business : string) :
  outcome_ok (io_script w (io_count w)) = true ->
  list_clients_for_business business w
  = (Returns (List.filter (fun c => String.eqb (client_business_id c) business)
                (clients w)), tick w).
Proof.
  intros Hok.
  unfold list_clients_for_business, rest_get_clients, bind, http.
  destruct (io_script w (io_count w)) as [c|exc]; simpl in Hok; [|discriminate].
  rewrite Hok. unfold gets, ret. cbn beta iota.
  rewrite geb_400, Hok. reflexivity.
Qed.

Lemma list_clients_failed (w : World) (business : string) :
  outcome_ok (io_script w (io_count w)) = false ->
  exists exc, list_clients_for_business business w = (Raises exc, tick w).
Proof.
  intros Hok.
  unfold list_clients_for_business, rest_get_clients, bind, http.
  destruct (io_script w (io_count w)) as [c|exc]; simpl in Hok.
  - rewrite Hok. unfold ret. cbn beta iota. rewrite geb_400, Hok.
    eexists. reflexivity.
  - eexists. reflexivity.
Qed.

Lemma bot_send_message_ok (w : World) (chat : PyVal) (txt : list Line)
    (mode : string) :
  outcome_ok (io_script w (io_count w)) = true ->
  bot_send_message chat txt mode w
  = (Returns tt,
     set_outbox (outbox w ++ [{| chat_id := chat; text := txt; parse_mode := mode |}])
       (tick w)).
Proof.
  intros Hok. unfold bot_send_message, bind, http.
  destruct (io_script w (io_count w)) as [c|exc]; simpl in Hok; [|discriminate].
  rewrite geb_400, Hok. reflexivity.
Qed.

Lemma bot_send_message_failed (w : World) (chat : PyVal) (txt : list Line)
    (mode : string) :
  outcome_ok (io_script w (io_count w)) = false ->
  exists exc, bot_send_message chat txt mode w = (Raises exc, tick w).
Proof.
  intros Hok. unfold bot_send_message, bind, http.
  destruct (io_script w (io_count w)) as [c|exc]; simpl in Hok.
  - rewrite geb_400, Hok. eexists. reflexivity.
  - eexists. reflexivity.
Qed.

(** One turn of the marking loop never raises; it makes one round trip,
    logs one record about its subscription, and marks the rows of the
    subscription when the round trip succeeds. *)
Lemma mark_one_run (w : World) (s : Subscription) :
  exists r,
    mark_attempt r = Some (sub_id s) /\
    mark_one s w
    = (Returns tt,
       set_log (log w ++ [r])
         (set_subscriptions
            (if outcome_ok (io_script w (io_count w))
             then set_reminder_sent (sub_id s) (clock_now w) (subscriptions w)
             else subscriptions w)
            (tick w))).
Proof.
  unfold mark_one, try_except, bind, mark_reminder_sent, bind, gets,
    rest_patch_reminder_sent_at, bind, http.
  destruct (io_script w (io_count w)) as [c|exc]; simpl outcome_ok.
  - destruct (c <? 400) eqn:Hc; cbn beta iota; unfold modify, gets, ret;
      cbn beta iota; rewrite geb_400, Hc; cbn [negb].
    + destruct (List.filter _ _) as [|row rows'].
      * eexists. split; [|reflexivity]. reflexivity.
      * eexists. split; [|reflexivity]. reflexivity.
    + eexists. split; [|reflexivity]. reflexivity.
  - eexists. split; [|reflexivity]. reflexivity.
Qed.

Lemma mark_attempts_app (l1 l2 : list LogRecord) :
  mark_attempts (l1 ++ l2) = mark_attempts l1 ++ mark_attempts l2.
Proof. unfold mark_attempts. apply omap_app. Qed.

(** The marking loop as a whole. *)
Lemma mark_loop_run (l : list Subscription) (w : World) :
  exists w',
    for_each mark_one l w = (Returns tt, w')
    /\ same_surroundings w w'
    /\ subscriptions w'
       = marked_rows (io_script w) (io_count w) (clock_now w) l (subscriptions w)
    /\ outbox w' = outbox w
    /\ io_count w' = (io_count w + length l)%nat
    /\ mark_attempts (log w') = mark_attempts (log w) ++ map sub_id l.
Proof.
  revert w. induction l as [|s l IH]; intros w.
  - exists w. simpl. rewrite app_nil_r.
    split; [reflexivity|]. split; [apply same_surroundings_refl|].
    repeat split; auto; lia.
  - destruct (mark_one_run w s) as (r & Hr & Hrun).
    cbn [for_each]. unfold bind at 1. rewrite Hrun.
    match goal with |- context [for_each mark_one l ?w1] =>
      destruct (IH w1) as (w' & Hloop & Hsame & Hsubs & Hout & Hcnt & Hlog) end.
    exists w'. split; [exact Hloop|].
    split; [|split; [|split; [|split]]].
    + eapply same_surroundings_trans; [|exact Hsame].
      unfold same_surroundings. simpl. tauto.
    + rewrite Hsubs. reflexivity.
    + rewrite Hout. reflexivity.
    + rewrite Hcnt. simpl. lia.
    + rewrite Hlog. simpl log. rewrite mark_attempts_app.
      unfold mark_attempts at 2. simpl omap. rewrite Hr. simpl.
      rewrite <- app_assoc. reflexivity.
Qed.

(** ** How a call of the routine goes *)

(** [send_reminder_for_business] never raises, leaves its surroundings
    alone, and goes one of the five ways of [routine_run]. *)
Lemma send_reminder_for_business_run (business : string) (chat days_until : PyVal)
    (w : World) :
  exists w',
    send_reminder_for_business business chat days_until w = (Returns tt, w')
    /\ same_surroundings w w'
    /\ routine_run business chat days_until w w'.
Proof.
  unfold send_reminder_for_business, try_except.
  unfold bind at 1.
  destruct (outcome_ok (io_script w (io_count w))) eqn:H0.
  2:{ destruct (list_subscriptions_failed w business H0) as (exc & ->).
      eexists. split; [reflexivity|]. split.
      - unfold same_surroundings. simpl. tauto.
      - eapply run_load_failed; eauto. }
  rewrite (list_subscriptions_ok w business H0).
  unfold bind at 1, gets.
  change (expiring_today (clock_today (tick w)) days_until (business_rows business w))
    with (due_now business days_until w).
  destruct (due_now business days_until w) as [|d due] eqn:Hdue.
  { eexists. split; [reflexivity|]. split.
    - unfold same_surroundings. simpl. tauto.
    - eapply run_nothing_due; eauto. }
  assert (Hne : due_now business days_until w <> []) by (rewrite Hdue; discriminate).
  rewrite <- Hdue in *. clear Hdue.
  unfold bind at 1.
  destruct (outcome_ok (io_script w (S (io_count w)))) eqn:H1.
  2:{ destruct (list_clients_failed (tick w) business H1) as (exc & ->).
      eexists. split; [reflexivity|]. split.
      - unfold same_surroundings. simpl. tauto.
      - eapply run_clients_failed; eauto. }
  rewrite (list_clients_ok (tick w) business H1).
  unfold bind at 1.
  destruct (outcome_ok (io_script w (S (S (io_count w))))) eqn:H2.
  2:{ match goal with |- context [bot_send_message ?c ?t ?m ?w1] =>
        destruct (bot_send_message_failed w1 c t m H2) as (exc & ->) end.
      eexists. split; [reflexivity|]. split.
      - unfold same_surroundings. simpl. tauto.
      - eapply run_send_failed; eauto. }
  match goal with |- context [bot_send_message ?c ?t ?m ?w1] =>
    rewrite (bot_send_message_ok w1 c t m H2) end.
  match goal with |- context [for_each mark_one ?l ?w1] =>
    destruct (mark_loop_run l w1) as (w' & -> & Hsame & Hsubs & Hout & Hcnt & Hlog) end.
  exists w'. split; [reflexivity|]. split.
  - eapply same_surroundings_trans; [|exact Hsame].
    unfold same_surroundings. simpl. tauto.
  - eapply run_sent; eauto.
Qed.

(** ** The marking loop and the table *)

Lemma set_reminder_sent_In (id : string) (t : datetime) (rows : list Subscription)
    (r : Subscription) :
  In r (set_reminder_sent id t rows) ->
  exists r0, In r0 rows
    /\ ((String.eqb (sub_id r0) id = true /\ r = with_reminder_sent_at (Some t) r0)
        \/ (String.eqb (sub_id r0) id = false /\ r = r0)).
Proof.
  unfold set_reminder_sent. rewrite in_map_iff. intros (r0 & Hr & Hin).
  exists r0. split; [exact Hin|].
  destruct (String.eqb (sub_id r0) id); [left|right]; auto.
Qed.

(** A marked row stays marked under further marking requests. *)
Lemma set_reminder_sent_keeps (id : string) (t : datetime) (rows : list Subscription)
    (s : Subscription) :
  In (with_reminder_sent_at (Some t) s) rows ->
  In (with_reminder_sent_at (Some t) s) (set_reminder_sent id t rows).
Proof.
  intros Hin. unfold set_reminder_sent. apply in_map_iff.
  exists (with_reminder_sent_at (Some t) s). split; [|exact Hin].
  destruct (String.eqb _ id); reflexivity.
Qed.

Lemma set_reminder_sent_marks (t : datetime) (rows : list Subscription)
    (s : Subscription) :
  In s rows ->
  In (with_reminder_sent_at (Some t) s) (set_reminder_sent (sub_id s) t rows).
Proof.
  intros Hin. unfold set_reminder_sent. apply in_map_iff.
  exists s. split; [|exact Hin]. rewrite String.eqb_refl. reflexivity.
Qed.

Lemma set_reminder_sent_progress (id : string) (t : datetime) (rows : list Subscription)
    (s : Subscription) :
  In s rows \/ In (with_reminder_sent_at (Some t) s) rows ->
  In s (set_reminder_sent id t rows)
  \/ In (with_reminder_sent_at (Some t) s) (set_reminder_sent id t rows).
Proof.
  intros [Hin|Hin]; [|right; apply set_reminder_sent_keeps; exact Hin].
  destruct (String.eqb (sub_id s) id) eqn:E.
  - apply String.eqb_eq in E. subst id. right. apply set_reminder_sent_marks, Hin.
  - left. unfold set_reminder_sent. apply in_map_iff. exists s.
    rewrite E. auto.
Qed.

Lemma marked_rows_keeps (script : nat -> Outcome) (t : datetime)
    (l : list Subscription) (s : Subscription) :
  forall (n : nat) (rows : list Subscription),
    In (with_reminder_sent_at (Some t) s) rows ->
    In (with_reminder_sent_at (Some t) s) (marked_rows script n t l rows).
Proof.
  induction l as [|s0 l IH]; intros n rows Hin; simpl; [exact Hin|].
  apply IH. destruct (outcome_ok (script n)); [|exact Hin].
  apply set_reminder_sent_keeps, Hin.
Qed.

(** The row of the [i]-th subscription of the loop is marked in the end
    whenever its own request succeeds, whatever happens to the others. *)
Lemma marked_rows_marks (script : nat -> Outcome) (t : datetime)
    (l : list Subscription) (s : Subscription) :
  forall (i n : nat) (rows : list Subscription),
    nth_error l i = Some s ->
    In s rows \/ In (with_reminder_sent_at (Some t) s) rows ->
    outcome_ok (script (n + i)%nat) = true ->
    In (with_reminder_sent_at (Some t) s) (marked_rows script n t l rows).
Proof.
  induction l as [|s0 l IH]; intros i n rows Hnth Hin Hok.
  - destruct i; discriminate.
  - destruct i as [|i]; simpl in Hnth.
    + injection Hnth as ->. simpl. rewrite Nat.add_0_r in Hok. rewrite Hok.
      apply marked_rows_keeps.
      destruct Hin as [Hin|Hin];
        [apply set_reminder_sent_marks|apply set_reminder_sent_keeps]; exact Hin.
    + simpl. apply (IH i (S n)); [exact Hnth| |].
      * destruct (outcome_ok (script n)); [|exact Hin].
        apply set_reminder_sent_progress, Hin.
      * replace (S n + i)%nat with (n + S i)%nat by lia. exact Hok.
Qed.

(** When every request of the loop succeeds, a row that is still unmarked
    afterwards was in the table before and is none of the loop's
    subscriptions. *)
Lemma marked_rows_unmarked (script : nat -> Outcome) (t : datetime)
    (l : list Subscription) (r : Subscription) :
  forall (n : nat) (rows : list Subscription),
    (forall i, (n <= i < n + length l)%nat -> outcome_ok (script i) = true) ->
    In r (marked_rows script n t l rows) ->
    reminder_sent_at r = None ->
    In r rows /\ ~ In (sub_id r) (map sub_id l).
Proof.
  induction l as [|s0 l IH]; intros n rows Hok Hin Hnone; simpl in *.
  - tauto.
  - rewrite (Hok n) in Hin by lia.
    destruct (IH (S n) (set_reminder_sent (sub_id s0) t rows)) as [Hin' Hnot];
      [intros i Hi; apply Hok; lia|exact Hin|exact Hnone|].
    apply set_reminder_sent_In in Hin' as (r0 & Hr0 & [[_ ->]|[Hne ->]]).
    + simpl in Hnone. discriminate.
    + split; [exact Hr0|]. intros [Heq|Hin2]; [|tauto].
      apply String.eqb_neq in Hne. congruence.
Qed.

Lemma due_now_In (business : string) (days_until : PyVal) (w : World)
    (s : Subscription) :
  In s (due_now business days_until w) <->
  In s (subscriptions w) /\ business_id s = business /\ status s = ACTIVE
  /\ py_eq (PInt (end_date s - clock_today w)) days_until = true
  /\ reminder_sent_at s = None.
Proof.
  unfold due_now, business_rows. rewrite expiring_today_In, business_rows_In. tauto.
Qed.

(** After a call in which every round trip succeeded nothing is due. *)
Lemma nothing_due_after_marking (business : string) (days_until : PyVal)
    (w w' : World) :
  clock_today w' = clock_today w ->
  subscriptions w' =
    marked_rows (io_script w) (S (S (S (io_count w)))) (clock_now w)
      (due_now business days_until w) (subscriptions w) ->
  (forall i, (S (S (S (io_count w))) <= i
              < S (S (S (io_count w))) + length (due_now business days_until w))%nat ->
             outcome_ok (io_script w i) = true) ->
  due_now business days_until w' = [].
Proof.
  intros Hday Hsubs Hok.
  destruct (due_now business days_until w') as [|r rest] eqn:Hdue; [reflexivity|].
  exfalso.
  assert (Hr : In r (due_now business days_until w'))
    by (rewrite Hdue; left; reflexivity).
  apply due_now_In in Hr as (Hin & Hb & Hst & Hd & Hnone).
  rewrite Hsubs in Hin. rewrite Hday in Hd.
  apply marked_rows_unmarked in Hin as [Hin Hnot]; [|exact Hok|exact Hnone].
  apply Hnot, in_map. apply due_now_In. tauto.
Qed.

(** A call that finds nothing due sends nothing. *)
Lemma nothing_due_nothing_sent (business : string) (chat days_until : PyVal)
    (w : World) :
  due_now business days_until w = [] ->
  outbox (snd (send_reminder_for_business business chat days_until w)) = outbox w
  /\ subscriptions (snd (send_reminder_for_business business chat days_until w))
     = subscriptions w.
Proof.
  intros Hdue.
  destruct (send_reminder_for_business_run business chat days_until w)
    as (w' & -> & _ & Hrun).
  simpl. inversion Hrun; subst; auto; congruence.
Qed.

(** ** Idempotence *)

(** C2: when every round trip of a first call succeeds, the first call
    sends at most one message, and a second call made right after it, in
    the world the first call left, sends none, whatever its own round
    trips do: the markings of the first call leave nothing due. *)
Theorem second_call_sends_nothing (business : string) (chat days_until : PyVal)
    (w : World) :
  let w1 := snd (send_reminder_for_business business chat days_until w) in
  (forall i, (io_count w <= i < io_count w1)%nat -> outcome_ok (io_script w i) = true) ->
  (length (outbox w1) <= length (outbox w) + 1)%nat
  /\ due_now business days_until w1 = []
  /\ outbox (snd (send_reminder_for_business business chat days_until w1)) = outbox w1.
Proof.
  destruct (send_reminder_for_business_run business chat days_until w)
    as (w1 & -> & Hsame & Hrun).
  cbn [snd]. intros Hok.
  assert (Hday : clock_today w1 = clock_today w) by apply Hsame.
  assert (Hdue : (length (outbox w1) <= length (outbox w) + 1)%nat
                 /\ due_now business days_until w1 = []).
  { inversion Hrun as [w' exc H0 Hs Ho Hc Hl | w' H0 Hd Hs Ho Hc Hl
                      | w' exc H0 Hd H1 Hs Ho Hc Hl
                      | w' exc H0 Hd H1 H2 Hs Ho Hc Hl
                      | w' H0 Hd H1 H2 Hs Ho Hc Hl]; subst w'.
    - rewrite Hok in H0 by lia. discriminate.
    - split; [rewrite Ho; lia|].
      unfold due_now, business_rows in *. rewrite Hs, Hday. exact Hd.
    - rewrite Hok in H1 by lia. discriminate.
    - rewrite Hok in H2 by lia. discriminate.
    - split; [rewrite Ho, length_app; simpl; lia|].
      apply (nothing_due_after_marking business days_until w w1 Hday Hs).
      intros i Hi. apply Hok. lia. }
  destruct Hdue as [Hlen Hdue]. repeat split; [exact Hlen|exact Hdue|].
  apply nothing_due_nothing_sent, Hdue.
Qed.

Lemma second_call_sends_nothing_witness :
  let w := Examples.world_of [Examples.in_a_week; Examples.in_a_week'; Examples.tomorrow]
             Examples.always_ok in
  let w1 := snd (send_reminder_for_business "gym" (PInt 5) (PInt 7) w) in
  (length (outbox w1) <= length (outbox w) + 1)%nat
  /\ due_now "gym" (PInt 7) w1 = []
  /\ outbox (snd (send_reminder_for_business "gym" (PInt 5) (PInt 7) w1)) = outbox w1.
Proof.
  apply (second_call_sends_nothing "gym" (PInt 5) (PInt 7)
           (Examples.world_of
              [Examples.in_a_week; Examples.in_a_week'; Examples.tomorrow]
              Examples.always_ok)).
  intros i _. reflexivity.
Defined.

(** ** Failures inside the routine *)

(** C3, as amended: when loading the subscriptions fails, or loading the
    clients for a non-empty due set fails, the routine catches the failure
    and logs it, and returns normally to its caller; no message is sent
    and no row of the table changes. *)
Theorem load_failure_is_logged_not_raised (business : string)
    (chat days_until : PyVal) (w : World) :
  outcome_ok (io_script w (io_count w)) = false
  \/ (outcome_ok (io_script w (io_count w)) = true
      /\ due_now business days_until w <> []
      /\ outcome_ok (io_script w (S (io_count w))) = false) ->
  exists w' exc,
    send_reminder_for_business business chat days_until w = (Returns tt, w')
    /\ log w' = log w ++ [LogErrorSendingReminder exc]
    /\ outbox w' = outbox w
    /\ subscriptions w' = subscriptions w.
Proof.
  intros Hfail.
  destruct (send_reminder_for_business_run business chat days_until w)
    as (w1 & Heq & _ & Hrun).
  exists w1.
  inversion Hrun as [w' exc H0 Hs Ho Hc Hl | w' H0 Hd Hs Ho Hc Hl
                    | w' exc H0 Hd H1 Hs Ho Hc Hl
                    | w' exc H0 Hd H1 H2 Hs Ho Hc Hl
                    | w' H0 Hd H1 H2 Hs Ho Hc Hl]; subst w';
    try (exists exc; tauto);
    destruct Hfail as [Hf|(Hf0 & Hfd & Hf1)]; congruence.
Qed.

Lemma load_failure_is_logged_not_raised_witness :
  exists w' exc,
    send_reminder_for_business "gym" (PInt 5) (PInt 7)
      (Examples.world_of [Examples.in_a_week] (Examples.breaks_at 1))
    = (Returns tt, w')
    /\ log w' = [LogErrorSendingReminder exc]
    /\ outbox w' = []
    /\ subscriptions w' = [Examples.in_a_week].
Proof.
  apply (load_failure_is_logged_not_raised "gym" (PInt 5) (PInt 7)
           (Examples.world_of [Examples.in_a_week] (Examples.breaks_at 1))).
  right. split; [reflexivity|]. split; [|reflexivity].
  vm_compute. discriminate.
Defined.

(** C3, as stated, fails: with the request for the subscriptions broken,
    and likewise with the request for the clients broken, the call returns
    normally; no exception reaches the caller. *)
Lemma load_failure_counterexample :
  let w0 := Examples.world_of [Examples.in_a_week] (Examples.breaks_at 0) in
  let w1 := Examples.world_of [Examples.in_a_week] (Examples.breaks_at 1) in
  io_script w0 0%nat = Broken (OtherException "ConnectError")
  /\ fst (send_reminder_for_business "gym" (PInt 5) (PInt 7) w0) = Returns tt
  /\ io_script w1 1%nat = Broken (OtherException "ConnectError")
  /\ fst (send_reminder_for_business "gym" (PInt 5) (PInt 7) w1) = Returns tt.
Proof. repeat split; reflexivity. Qed.

(** C4, as amended: when the notification send fails, the routine catches
    the failure and logs it, and returns normally to its caller; it makes
    no marking request, so no row of the table changes, and nothing is
    sent. *)
Theorem send_failure_is_logged_and_nothing_marked (business : string)
    (chat days_until : PyVal) (w : World) :
  outcome_ok (io_script w (io_count w)) = true ->
  due_now business days_until w <> [] ->
  outcome_ok (io_script w (S (io_count w))) = true ->
  outcome_ok (io_script w (S (S (io_count w)))) = false ->
  exists w' exc,
    send_reminder_for_business business chat days_until w = (Returns tt, w')
    /\ log w' = log w ++ [LogErrorSendingReminder exc]
    /\ io_count w' = S (S (S (io_count w)))
    /\ mark_attempts (log w') = mark_attempts (log w)
    /\ subscriptions w' = subscriptions w
    /\ outbox w' = outbox w.
Proof.
  intros Hf0 Hfd Hf1 Hf2.
  destruct (send_reminder_for_business_run business chat days_until w)
    as (w1 & Heq & _ & Hrun).
  exists w1.
  inversion Hrun as [w' exc H0 Hs Ho Hc Hl | w' H0 Hd Hs Ho Hc Hl
                    | w' exc H0 Hd H1 Hs Ho Hc Hl
                    | w' exc H0 Hd H1 H2 Hs Ho Hc Hl
                    | w' H0 Hd H1 H2 Hs Ho Hc Hl]; subst w'; try congruence.
  exists exc. repeat split; auto.
  rewrite Hl, mark_attempts_app. simpl. apply app_nil_r.
Qed.

Lemma send_failure_is_logged_and_nothing_marked_witness :
  exists w' exc,
    send_reminder_for_business "gym" (PInt 5) (PInt 7)
      (Examples.world_of [Examples.in_a_week] (Examples.breaks_at 2))
    = (Returns tt, w')
    /\ log w' = [LogErrorSendingReminder exc]
    /\ io_count w' = 3%nat
    /\ mark_attempts (log w') = []
    /\ subscriptions w' = [Examples.in_a_week]
    /\ outbox w' = [].
Proof.
  apply (send_failure_is_logged_and_nothing_marked "gym" (PInt 5) (PInt 7)
           (Examples.world_of [Examples.in_a_week] (Examples.breaks_at 2)));
    try reflexivity.
  vm_compute. discriminate.
Defined.

(** C4, as stated, fails: with the Telegram request broken the call
    returns normally; no exception reaches the caller. *)
Lemma send_failure_counterexample :
  let w := Examples.world_of [Examples.in_a_week] (Examples.breaks_at 2) in
  due_now "gym" (PInt 7) w = [Examples.in_a_week]
  /\ io_script w 2%nat = Broken (OtherException "ConnectError")
  /\ fst (send_reminder_for_business "gym" (PInt 5) (PInt 7) w) = Returns tt.
Proof. repeat split; reflexivity. Qed.

(** ** Marking after a successful send *)

Lemma due_now_in_table (business : string) (days_until : PyVal) (w : World)
    (i : nat) (s : Subscription) :
  nth_error (due_now business days_until w) i = Some s -> In s (subscriptions w).
Proof.
  intros Hnth. apply nth_error_In in Hnth. apply due_now_In in Hnth. tauto.
Qed.

(** C7: once the subscriptions and the clients are loaded and the message
    is sent, the routine returns normally having sent exactly that one
    message; it makes one marking request per due subscription, in order,
    whatever the outcome of each; and every due subscription whose own
    request succeeds has its row marked in the end, whether or not the
    requests of the others fail. *)
Theorem markings_are_independent (business : string) (chat days_until : PyVal)
    (w : World) :
  outcome_ok (io_script w (io_count w)) = true ->
  due_now business days_until w <> [] ->
  outcome_ok (io_script w (S (io_count w))) = true ->
  outcome_ok (io_script w (S (S (io_count w)))) = true ->
  exists w',
    send_reminder_for_business business chat days_until w = (Returns tt, w')
    /\ outbox w'
       = outbox w
         ++ [{| chat_id := chat;
                text := reminder_lines days_until
                          (client_map_of
                             (List.filter
                                (fun c => String.eqb (client_business_id c) business)
                                (clients w)))
                          (due_now business days_until w);
                parse_mode := "HTML" |}]
    /\ io_count w' = (3 + io_count w + length (due_now business days_until w))%nat
    /\ mark_attempts (log w')
       = mark_attempts (log w) ++ map sub_id (due_now business days_until w)
    /\ forall i s,
         nth_error (due_now business days_until w) i = Some s ->
         outcome_ok (io_script w (3 + io_count w + i)%nat) = true ->
         In (with_reminder_sent_at (Some (clock_now w)) s) (subscriptions w').
Proof.
  intros Hf0 Hfd Hf1 Hf2.
  destruct (send_reminder_for_business_run business chat days_until w)
    as (w1 & Heq & _ & Hrun).
  exists w1.
  inversion Hrun as [w' exc H0 Hs Ho Hc Hl | w' H0 Hd Hs Ho Hc Hl
                    | w' exc H0 Hd H1 Hs Ho Hc Hl
                    | w' exc H0 Hd H1 H2 Hs Ho Hc Hl
                    | w' H0 Hd H1 H2 Hs Ho Hc Hl]; subst w'; try congruence.
  split; [exact Heq|]. split; [exact Ho|]. split; [exact Hc|].
  split; [exact Hl|].
  intros i s Hnth Hok. rewrite Hs.
  apply (marked_rows_marks _ _ _ _ i); [exact Hnth| |exact Hok].
  left. eapply due_now_in_table, Hnth.
Qed.

(** The scenario of C7: two subscriptions are due and the marking request
    of the second one breaks. *)
Lemma markings_are_independent_witness :
  exists w',
    send_reminder_for_business "gym" (PInt 5) (PInt 7)
      (Examples.world_of [Examples.in_a_week; Examples.in_a_week'] (Examples.breaks_at 4))
    = (Returns tt, w')
    /\ outbox w'
       = [{| chat_id := PInt 5;
             text := [LineTitle; LineExpireIn (PInt 7); LineBlank;
                      LineItem "Anna" (Examples.today0 + 7) "1500.00" "RUB";
                      LineItem "Unknown" (Examples.today0 + 7) "1500.00" "RUB";
                      LineBlank; LineFooter];
             parse_mode := "HTML" |}]
    /\ io_count w' = 5%nat
    /\ mark_attempts (log w') = ["s1"; "s2"]
    /\ forall i s,
         nth_error [Examples.in_a_week; Examples.in_a_week'] i = Some s ->
         outcome_ok (Examples.breaks_at 4 (3 + i)%nat) = true ->
         In (with_reminder_sent_at (Some 1000) s) (subscriptions w').
Proof.
  apply (markings_are_independent "gym" (PInt 5) (PInt 7)
           (Examples.world_of [Examples.in_a_week; Examples.in_a_week']
              (Examples.breaks_at 4)));
    try reflexivity.
  vm_compute. discriminate.
Defined.

(** The same scenario, run: one message listing both subscriptions, the
    first row marked, the second left unmarked and its failure logged. *)
Example two_due_second_marking_fails :
  let w := Examples.world_of [Examples.in_a_week; Examples.in_a_week']
             (Examples.breaks_at 4) in
  let r := send_reminder_for_business "gym" (PInt 5) (PInt 7) w in
  fst r = Returns tt
  /\ outbox (snd r)
     = [{| chat_id := PInt 5;
           text := [LineTitle; LineExpireIn (PInt 7); LineBlank;
                    LineItem "Anna" (Examples.today0 + 7) "1500.00" "RUB";
                    LineItem "Unknown" (Examples.today0 + 7) "1500.00" "RUB";
                    LineBlank; LineFooter];
           parse_mode := "HTML" |}]
  /\ subscriptions (snd r)
     = [with_reminder_sent_at (Some 1000) Examples.in_a_week; Examples.in_a_week']
  /\ log (snd r)
     = [LogMarkedReminderSent "s1";
        LogFailedToMark "s2" (OtherException "ConnectError")].
Proof. repeat split; reflexivity. Qed.

(** ** The hourly sweep *)

Section SweepProperties.

Variable get_owner_by_telegram : PyVal -> M (option (OwnerProfile * Business)).
Variable reminder_routine : string -> PyVal -> PyVal -> M unit.

Lemma logged_handler_returns (m : M unit) (record : exn -> LogRecord) (w : World) :
  fst (try_except m (fun exc => logger (record exc)) w) = Returns tt.
Proof.
  unfold try_except. destruct (m w) as [[[]|exc] w']; reflexivity.
Qed.

(** The body of the loop never raises. *)
Lemma sweep_owner_returns (current_hour : Z) (owner_row : gmap string PyVal)
    (w : World) :
  fst (sweep_owner get_owner_by_telegram reminder_routine current_hour owner_row w)
  = Returns tt.
Proof.
  unfold sweep_owner.
  destruct (negb (py_eq _ _)); [reflexivity|].
  destruct (negb (truthy _)); [reflexivity|].
  apply logged_handler_returns.
Qed.

(** A loop whose body never raises goes over its whole list. *)
Lemma for_each_app {A} (body : A -> M unit) (l1 l2 : list A) (w : World) :
  (forall x w0, fst (body x w0) = Returns tt) ->
  for_each body (l1 ++ l2) w = for_each body l2 (snd (for_each body l1 w)).
Proof.
  intros Hbody. revert w. induction l1 as [|x l1 IH]; intros w; [reflexivity|].
  cbn [for_each app]. unfold bind.
  specialize (Hbody x w). destruct (body x w) as [[[]|exc] w0]; simpl in Hbody.
  - apply IH.
  - discriminate.
Qed.

Lemma for_each_returns {A} (body : A -> M unit) (l : list A) (w : World) :
  (forall x w0, fst (body x w0) = Returns tt) ->
  fst (for_each body l w) = Returns tt.
Proof.
  intros Hbody. revert w. induction l as [|x l IH]; intros w; [reflexivity|].
  cbn [for_each]. unfold bind.
  specialize (Hbody x w). destruct (body x w) as [[[]|exc] w0]; simpl in Hbody.
  - apply IH.
  - discriminate.
Qed.

(** The loop over the owner rows, one row at a time: the rows after a row
    are processed from the world that row left, whatever happened in it. *)
Lemma sweep_loop_cons (current_hour : Z) (owner_row : gmap string PyVal)
    (rest : list (gmap string PyVal)) (w : World) :
  for_each (sweep_owner get_owner_by_telegram reminder_routine current_hour)
    (owner_row :: rest) w
  = for_each (sweep_owner get_owner_by_telegram reminder_routine current_hour) rest
      (snd (sweep_owner get_owner_by_telegram reminder_routine current_hour
              owner_row w)).
Proof.
  cbn [for_each]. unfold bind.
  pose proof (sweep_owner_returns current_hour owner_row w) as Hret.
  destruct (sweep_owner _ _ _ owner_row w) as [[[]|exc] w0]; simpl in Hret.
  - reflexivity.
  - discriminate.
Qed.

(** The sweep, when the owner rows are fetched: the loop over the enabled
    rows, from the world after the fetch, and the record of completion. *)
Lemma hourly_reminders_run (w : World) :
  outcome_ok (io_script w (io_count w)) = true ->
  let started :=
    if is_debug w
    then set_log (log w ++ [LogRunningHourlyCheck (clock_hour w)]) w
    else w in
  let owners :=
    List.filter (fun r => match r !! "reminder_enabled" with
                          | Some (PBool true) => true
                          | _ => false
                          end) (owner_profiles w) in
  let swept :=
    snd (for_each
           (sweep_owner get_owner_by_telegram reminder_routine (clock_hour w))
           owners (tick started)) in
  hourly_reminders get_owner_by_telegram reminder_routine w
  = (Returns tt, set_log (log swept ++ [LogHourlyCompleted]) swept).
Proof.
  intros Hok. cbv zeta.
  unfold hourly_reminders, bind at 1, gets. unfold bind at 1. unfold bind at 1.
  assert (Hloop : forall owners w1,
             fst (for_each
                    (sweep_owner get_owner_by_telegram reminder_routine (clock_hour w))
                    owners w1) = Returns tt).
  { intros owners w1. apply for_each_returns.
    intros x w0. apply sweep_owner_returns. }
  unfold try_except, bind, rest_get_enabled_owner_profiles, bind, http.
  destruct (is_debug w); unfold logger, modify, gets, ret; cbn beta iota;
    cbn [io_script io_count set_log];
    destruct (io_script w (io_count w)) as [c|exc]; simpl in Hok;
    try discriminate; rewrite Hok; cbn beta iota; rewrite geb_400, Hok; cbn [negb];
    cbn [owner_profiles tick set_io_count set_log];
    match goal with |- context [for_each ?body ?l ?w1] =>
      specialize (Hloop l w1); destruct (for_each body l w1) as [[[]|exc] w2];
      simpl in Hloop; [reflexivity|discriminate]
    end.
Qed.

(** C6: whatever the owner lookup and the per-owner routine do, (1) the
    processing of one owner row never lets an exception out; (2) an
    exception raised by the lookup or by the routine for an owner whose
    hour has come is caught and logged with that owner, and without an
    exception the row leaves the world the lookup, or the routine called
    for the business found, left; (3) the loop starts from the world it
    is given and processes the rows after any row from the world that row
    left, so it goes over every row; and (4) the sweep returns normally in
    every case, and when the owner rows are fetched it is that loop over
    the enabled rows, from the world after the fetch, followed by the
    record of completion. *)
Theorem sweep_survives_owner_failures (current_hour : Z) :
  (forall owner_row w,
      fst (sweep_owner get_owner_by_telegram reminder_routine current_hour owner_row w)
      = Returns tt)
  /\ (forall owner_row w w1 exc,
        let telegram_user_id := dict_get owner_row "telegram_user_id" PNone in
        let days_before := dict_get owner_row "reminder_days_before" (PInt 7) in
        py_eq (dict_get owner_row "reminder_hour" (PInt 10)) (PInt current_hour) = true ->
        truthy telegram_user_id = true ->
        get_owner_by_telegram telegram_user_id w = (Raises exc, w1)
        \/ (exists owner business w0,
              get_owner_by_telegram telegram_user_id w
              = (Returns (Some (owner, business)), w0)
              /\ reminder_routine (business_ident business) telegram_user_id
                   days_before w0 = (Raises exc, w1)) ->
        sweep_owner get_owner_by_telegram reminder_routine current_hour owner_row w
        = (Returns tt,
           set_log (log w1 ++ [LogErrorProcessingOwner telegram_user_id exc]) w1))
  /\ (forall owner_row w w1,
        let telegram_user_id := dict_get owner_row "telegram_user_id" PNone in
        let days_before := dict_get owner_row "reminder_days_before" (PInt 7) in
        py_eq (dict_get owner_row "reminder_hour" (PInt 10)) (PInt current_hour) = true ->
        truthy telegram_user_id = true ->
        get_owner_by_telegram telegram_user_id w = (Returns None, w1)
        \/ (exists owner business w0,
              get_owner_by_telegram telegram_user_id w
              = (Returns (Some (owner, business)), w0)
              /\ reminder_routine (business_ident business) telegram_user_id
                   days_before w0 = (Returns tt, w1)) ->
        sweep_owner get_owner_by_telegram reminder_routine current_hour owner_row w
        = (Returns tt, w1))
  /\ (forall w,
        for_each (sweep_owner get_owner_by_telegram reminder_routine current_hour)
          [] w
        = (Returns tt, w))
  /\ (forall owner_row rest w,
        for_each (sweep_owner get_owner_by_telegram reminder_routine current_hour)
          (owner_row :: rest) w
        = for_each (sweep_owner get_owner_by_telegram reminder_routine current_hour)
            rest
            (snd (sweep_owner get_owner_by_telegram reminder_routine current_hour
                    owner_row w)))
  /\ (forall before after w,
        for_each (sweep_owner get_owner_by_telegram reminder_routine current_hour)
          (before ++ after) w
        = for_each (sweep_owner get_owner_by_telegram reminder_routine current_hour)
            after
            (snd (for_each
                    (sweep_owner get_owner_by_telegram reminder_routine current_hour)
                    before w)))
  /\ (forall w,
        fst (hourly_reminders get_owner_by_telegram reminder_routine w) = Returns tt)
  /\ (forall w,
        outcome_ok (io_script w (io_count w)) = true ->
        let started :=
          if is_debug w
          then set_log (log w ++ [LogRunningHourlyCheck (clock_hour w)]) w
          else w in
        let owners :=
          List.filter (fun r => match r !! "reminder_enabled" with
                                | Some (PBool true) => true
                                | _ => false
                                end) (owner_profiles w) in
        let swept :=
          snd (for_each
                 (sweep_owner get_owner_by_telegram reminder_routine (clock_hour w))
                 owners (tick started)) in
        hourly_reminders get_owner_by_telegram reminder_routine w
        = (Returns tt, set_log (log swept ++ [LogHourlyCompleted]) swept)).
Proof.
  split; [|split; [|split; [|split; [|split; [|split; [|split]]]]]].
  - intros owner_row w. apply sweep_owner_returns.
  - intros owner_row w w1 exc tid days Hhour Htid Hraise.
    unfold sweep_owner. fold tid. fold days. rewrite Hhour, Htid. cbn [negb].
    unfold try_except, bind.
    destruct Hraise as [->|(owner & business & w0 & -> & ->)]; reflexivity.
  - intros owner_row w w1 tid days Hhour Htid Hdone.
    unfold sweep_owner. fold tid. fold days. rewrite Hhour, Htid. cbn [negb].
    unfold try_except, bind.
    destruct Hdone as [->|(owner & business & w0 & -> & ->)]; reflexivity.
  - intros w. reflexivity.
  - intros owner_row rest w. apply sweep_loop_cons.
  - intros before after w. apply for_each_app.
    intros x w0. apply sweep_owner_returns.
  - intros w. unfold hourly_reminders, bind, gets.
    destruct (is_debug w); cbn beta iota; apply logged_handler_returns.
  - intros w Hok. apply (hourly_reminders_run w Hok).
Qed.

(** C10: (1) a row without [reminder_hour] is processed as the same row
    with [reminder_hour] 10; (2) a row without [reminder_days_before] is
    processed as the same row with [reminder_days_before] 7; (3) a row
    whose [telegram_user_id] is missing or zero is skipped: the world is
    left as it was, so nothing is sent and nothing is marked. *)
Theorem sweep_defaults_and_skips (current_hour : Z) (owner_row : gmap string PyVal) :
  (owner_row !! "reminder_hour" = None ->
   sweep_owner get_owner_by_telegram reminder_routine current_hour owner_row
   = sweep_owner get_owner_by_telegram reminder_routine current_hour
       (<["reminder_hour" := PInt 10]> owner_row))
  /\ (owner_row !! "reminder_days_before" = None ->
      sweep_owner get_owner_by_telegram reminder_routine current_hour owner_row
      = sweep_owner get_owner_by_telegram reminder_routine current_hour
          (<["reminder_days_before" := PInt 7]> owner_row))
  /\ (owner_row !! "telegram_user_id" = None
      \/ owner_row !! "telegram_user_id" = Some (PInt 0) ->
      forall w,
        sweep_owner get_owner_by_telegram reminder_routine current_hour owner_row w
        = (Returns tt, w)).
Proof.
  split; [|split].
  - intros Hnone. unfold sweep_owner, dict_get.
    rewrite Hnone, lookup_insert_eq, !lookup_insert_ne by discriminate.
    reflexivity.
  - intros Hnone. unfold sweep_owner, dict_get.
    rewrite Hnone, lookup_insert_eq, !lookup_insert_ne by discriminate.
    reflexivity.
  - intros Htid w. unfold sweep_owner.
    destruct (negb (py_eq _ _)); [reflexivity|].
    unfold dict_get at 1. destruct Htid as [-> | ->]; reflexivity.
Qed.

End SweepProperties.

Lemma sweep_survives_owner_failures_witness :
  (let w := Examples.world_of [Examples.in_a_week] Examples.always_ok in
   sweep_owner Examples.lookup_failing_for_1 send_reminder_for_business 10
     (Examples.owner_row_of 1 10) w
   = (Returns tt,
      set_log
        (log w ++ [LogErrorProcessingOwner (PInt 1) (OtherException "RuntimeError")])
        w))
  /\ (let w := Examples.world_with_owners
                 [Examples.owner_row_of 1 10; Examples.owner_row_of 2 10]
                 [Examples.in_a_week] Examples.always_ok in
      let swept :=
        snd (for_each
               (sweep_owner Examples.lookup_failing_for_1 send_reminder_for_business 10)
               [Examples.owner_row_of 1 10; Examples.owner_row_of 2 10] (tick w)) in
      hourly_reminders Examples.lookup_failing_for_1 send_reminder_for_business w
      = (Returns tt, set_log (log swept ++ [LogHourlyCompleted]) swept)).
Proof.
  split.
  - apply (proj1 (proj2 (sweep_survives_owner_failures
                           Examples.lookup_failing_for_1 send_reminder_for_business 10))).
    + reflexivity.
    + reflexivity.
    + left. reflexivity.
  - apply (proj2 (proj2 (proj2 (proj2 (proj2 (proj2 (proj2
             (sweep_survives_owner_failures
                Examples.lookup_failing_for_1 send_reminder_for_business 10)))))))
             (Examples.world_with_owners
                [Examples.owner_row_of 1 10; Examples.owner_row_of 2 10]
                [Examples.in_a_week] Examples.always_ok)).
    reflexivity.
Defined.

(** A sweep at ten o'clock over two owners: the lookup of the first one
    fails, which is logged, and the second one still gets the reminder. *)
Example sweep_goes_on_after_a_failure :
  let w := Examples.world_with_owners
             [Examples.owner_row_of 1 10; Examples.owner_row_of 2 10]
             [Examples.in_a_week] Examples.always_ok in
  let r := _send_hourly_reminders Examples.lookup_failing_for_1 w in
  fst r = Returns tt
  /\ map chat_id (outbox (snd r)) = [PInt 2]
  /\ subscriptions (snd r) = [with_reminder_sent_at (Some 1000) Examples.in_a_week]
  /\ log (snd r)
     = [LogErrorProcessingOwner (PInt 1) (OtherException "RuntimeError");
        LogMarkedReminderSent "s1"; LogHourlyCompleted].
Proof. vm_compute. repeat split; reflexivity. Qed.

(** The same sweep an hour later does nothing but log its completion. *)
Example sweep_at_another_hour :
  let w := Examples.world_with_owners
             [Examples.owner_row_of 1 11; Examples.owner_row_of 2 11]
             [Examples.in_a_week] Examples.always_ok in
  let r := _send_hourly_reminders Examples.lookup_failing_for_1 w in
  fst r = Returns tt
  /\ outbox (snd r) = []
  /\ subscriptions (snd r) = [Examples.in_a_week]
  /\ log (snd r) = [LogHourlyCompleted].
Proof. vm_compute. repeat split; reflexivity. Qed.

Lemma sweep_defaults_and_skips_witness :
  sweep_owner Examples.lookup_failing_for_1 send_reminder_for_business 10
    (Examples.bare_owner_row 2)
  = sweep_owner Examples.lookup_failing_for_1 send_reminder_for_business 10
      (<["reminder_hour" := PInt 10]> (Examples.bare_owner_row 2))
  /\ sweep_owner Examples.lookup_failing_for_1 send_reminder_for_business 10
       (Examples.bare_owner_row 2)
     = sweep_owner Examples.lookup_failing_for_1 send_reminder_for_business 10
         (<["reminder_days_before" := PInt 7]> (Examples.bare_owner_row 2))
  /\ forall w,
       sweep_owner Examples.lookup_failing_for_1 send_reminder_for_business 10
         (Examples.owner_row_of 0 10) w
       = (Returns tt, w).
Proof.
  split; [|split].
  - apply (proj1 (sweep_defaults_and_skips
                    Examples.lookup_failing_for_1 send_reminder_for_business 10
                    (Examples.bare_owner_row 2))).
    reflexivity.
  - apply (proj1 (proj2 (sweep_defaults_and_skips
                    Examples.lookup_failing_for_1 send_reminder_for_business 10
                    (Examples.bare_owner_row 2)))).
    reflexivity.
  - apply (proj2 (proj2 (sweep_defaults_and_skips
                    Examples.lookup_failing_for_1 send_reminder_for_business 10
                    (Examples.owner_row_of 0 10)))).
    right. reflexivity.
Defined.

(** A row without [reminder_hour] is due at ten o'clock, with a lead time
    of 7 days when [reminder_days_before] is missing too. *)
Example bare_row_is_due_at_ten :
  let w := Examples.world_with_owners [Examples.bare_owner_row 2]
             [Examples.in_a_week; Examples.tomorrow] Examples.always_ok in
  let r := _send_hourly_reminders Examples.lookup_failing_for_1 w in
  map text (outbox (snd r))
  = [[LineTitle; LineExpireIn (PInt 7); LineBlank;
      LineItem "Anna" (Examples.today0 + 7) "1500.00" "RUB";
      LineBlank; LineFooter]].
Proof. vm_compute. reflexivity. Qed.

(** ** Lifecycle *)

Lemma timer_registrations_app (w : World) (s : AsyncIOScheduler)
    (rest : list AsyncIOScheduler) :
  schedulers w = rest ++ [s] ->
  timer_registrations w
  = concat (map jobs (List.filter (fun s => match state s with
                                            | STATE_RUNNING => true
                                            | STATE_STOPPED => false
                                            end) rest))
    ++ match state s with STATE_RUNNING => jobs s | STATE_STOPPED => [] end.
Proof.
  intros Hs. unfold timer_registrations. rewrite Hs.
  rewrite List.filter_app, map_app, concat_app. f_equal.
  simpl. destruct (state s); simpl; [reflexivity|apply app_nil_r].
Qed.

Lemma add_job_last (w : World) (rest : list AsyncIOScheduler) (s : AsyncIOScheduler)
    (j : Job) :
  schedulers w = rest ++ [s] ->
  existsb (fun k => String.eqb (job_id k) (job_id j)) (jobs s) = false ->
  add_job (length rest) j w
  = (Returns tt,
     set_schedulers (rest ++ [{| state := state s; jobs := jobs s ++ [j] |}]) w).
Proof.
  intros Hs Hfresh. unfold add_job, bind, gets. rewrite Hs.
  rewrite list_lookup_middle by reflexivity. rewrite Hfresh.
  unfold update_scheduler, modify. rewrite Hs.
  replace (length rest) with (length rest + 0)%nat by lia.
  rewrite alter_app_r. reflexivity.
Qed.

Lemma scheduler_start_last (w : World) (rest : list AsyncIOScheduler) (js : list Job) :
  schedulers w = rest ++ [{| state := STATE_STOPPED; jobs := js |}] ->
  scheduler_start (length rest) w
  = (Returns tt,
     set_schedulers (rest ++ [{| state := STATE_RUNNING; jobs := js |}]) w).
Proof.
  intros Hs. unfold scheduler_start, bind, gets. rewrite Hs.
  rewrite list_lookup_middle by reflexivity.
  unfold update_scheduler, modify. rewrite Hs.
  replace (length rest) with (length rest + 0)%nat by lia.
  rewrite alter_app_r. reflexivity.
Qed.

(** [start] never raises: it makes a scheduler of its own, gives it the
    hourly job and starts it, and points [self.scheduler] at it.  The
    schedulers that were there stay as they were. *)
Lemma start_run (w : World) :
  exists w',
    start w = (Returns tt, w')
    /\ schedulers w'
       = schedulers w ++ [{| state := STATE_RUNNING; jobs := [hourly_job] |}]
    /\ self_scheduler w' = Some (length (schedulers w)).
Proof.
  unfold start, bind at 1, new_AsyncIOScheduler.
  unfold bind at 1, modify.
  unfold bind at 1.
  erewrite add_job_last; [|reflexivity|reflexivity].
  unfold bind at 1.
  erewrite scheduler_start_last; [|reflexivity].
  eexists. split; [reflexivity|]. split; reflexivity.
Qed.

(** C5 fails on the code: calling [start] on a scheduler that is running
    returns normally, and leaves the first [AsyncIOScheduler] running next
    to the second one, so that the event loop holds two registrations of
    the hourly job where exactly one is required. *)
Theorem start_twice_registers_two_timers (w : World) :
  let r1 := start w in
  let r2 := start (snd r1) in
  fst r1 = Returns tt
  /\ fst r2 = Returns tt
  /\ timer_registrations (snd r1) = timer_registrations w ++ [hourly_job]
  /\ timer_registrations (snd r2) = timer_registrations w ++ [hourly_job; hourly_job].
Proof.
  destruct (start_run w) as (w1 & -> & Hs1 & _).
  cbn [snd fst].
  destruct (start_run w1) as (w2 & -> & Hs2 & _).
  cbn [snd fst].
  split; [reflexivity|]. split; [reflexivity|].
  assert (H1 : timer_registrations w1 = timer_registrations w ++ [hourly_job]).
  { rewrite (timer_registrations_app w1 _ _ Hs1). reflexivity. }
  split; [exact H1|].
  rewrite (timer_registrations_app w2 _ _ Hs2).
  fold (timer_registrations w1). rewrite H1, <- app_assoc. reflexivity.
Qed.

(** From the stopped state: one [start] registers the hourly job once, a
    second [start] registers it a second time, and [stop] then cancels only
    the registration [self.scheduler] points at. *)
Example start_start_stop :
  let w := Examples.world_of [] Examples.always_ok in
  let w1 := snd (start w) in
  let w2 := snd (start w1) in
  let w3 := snd (stop w2) in
  timer_registrations w = []
  /\ timer_registrations w1 = [hourly_job]
  /\ timer_registrations w2 = [hourly_job; hourly_job]
  /\ fst (stop w2) = Returns tt
  /\ timer_registrations w3 = [hourly_job].
Proof. repeat split; reflexivity. Qed.

(** [stop] on a scheduler that was never started does nothing. *)
Lemma stop_before_start (w : World) :
  self_scheduler w = None -> stop w = (Returns tt, w).
Proof. intros H. unfold stop, bind, gets. rewrite H. reflexivity. Qed.

(** * Further properties *)

(** ** What a call of the routine can and cannot do *)

(** X1: whatever the outcomes of its round trips, a call of
    [send_reminder_for_business] keeps the messages sent before it and
    sends at most one more; and when it sends none, it leaves the table of
    subscriptions as it was: no row is marked without a message. *)
Theorem at_most_one_message_and_no_marking_without_it (business : string)
    (chat days_until : PyVal) (w : World) :
  let w' := snd (send_reminder_for_business business chat days_until w) in
  (exists sent, outbox w' = outbox w ++ sent /\ (length sent <= 1)%nat)
  /\ (outbox w' = outbox w -> subscriptions w' = subscriptions w).
Proof.
  destruct (send_reminder_for_business_run business chat days_until w)
    as (w1 & -> & _ & Hrun).
  cbn [snd].
  inversion Hrun as [w' exc H0 Hs Ho Hc Hl | w' H0 Hd Hs Ho Hc Hl
                    | w' exc H0 Hd H1 Hs Ho Hc Hl
                    | w' exc H0 Hd H1 H2 Hs Ho Hc Hl
                    | w' H0 Hd H1 H2 Hs Ho Hc Hl]; subst w';
    try (split; [exists []; rewrite app_nil_r; split; [exact Ho|simpl; lia]
                |intros _; exact Hs]).
  split.
  - eexists. split; [exact Ho|]. simpl. lia.
  - intros Hsame. rewrite Ho in Hsame.
    apply (f_equal (@length Message)) in Hsame.
    rewrite length_app in Hsame. simpl in Hsame. lia.
Qed.

(** The ids of the subscriptions of [l] whose marking request succeeds,
    when the first request is round trip [n]. *)
Lemma marked_rows_as_map (script : nat -> Outcome) (t : datetime)
    (l : list Subscription) :
  forall (n : nat) (rows : list Subscription),
  exists ids : list string,
    (forall id, In id ids -> In id (map sub_id l))
    /\ marked_rows script n t l rows
       = map (fun r => if existsb (String.eqb (sub_id r)) ids
                       then with_reminder_sent_at (Some t) r else r) rows.
Proof.
  induction l as [|s l IH]; intros n rows.
  - exists []. split; [intros id []|]. simpl. symmetry. apply map_id.
  - simpl marked_rows.
    destruct (outcome_ok (script n)).
    + destruct (IH (S n) (set_reminder_sent (sub_id s) t rows)) as (ids & Hids & ->).
      exists (sub_id s :: ids). split.
      * intros id [<-|Hin]; [left; reflexivity|right; apply Hids, Hin].
      * unfold set_reminder_sent. rewrite map_map. apply map_ext. intros r.
        simpl existsb.
        destruct (String.eqb (sub_id r) (sub_id s)) eqn:E; simpl.
        -- destruct (existsb _ ids); reflexivity.
        -- reflexivity.
    + destruct (IH (S n) rows) as (ids & Hids & ->).
      exists ids. split; [|reflexivity].
      intros id Hin. right. apply Hids, Hin.
Qed.

(** The table after a call, as a function of the table before it. *)
Lemma routine_run_table (business : string) (chat days_until : PyVal) (w w1 : World) :
  routine_run business chat days_until w w1 ->
  exists ids : list string,
    (forall id, In id ids -> In id (map sub_id (due_now business days_until w)))
    /\ subscriptions w1
       = map (fun r => if existsb (String.eqb (sub_id r)) ids
                       then with_reminder_sent_at (Some (clock_now w)) r else r)
           (subscriptions w).
Proof.
  intros Hrun.
  inversion Hrun as [w' exc H0 Hs Ho Hc Hl | w' H0 Hd Hs Ho Hc Hl
                    | w' exc H0 Hd H1 Hs Ho Hc Hl
                    | w' exc H0 Hd H1 H2 Hs Ho Hc Hl
                    | w' H0 Hd H1 H2 Hs Ho Hc Hl]; subst w';
    try (exists []; split; [intros id []|]; rewrite Hs; simpl; symmetry; apply map_id).
  destruct (marked_rows_as_map (io_script w) (clock_now w)
              (due_now business days_until w) (S (S (S (io_count w))))
              (subscriptions w)) as (ids & Hids & Heq).
  exists ids. split; [exact Hids|]. rewrite Hs. exact Heq.
Qed.

(** X2: a call never adds, removes or reorders rows of the table and never
    changes a field other than [reminder_sent_at]: it sets that field to
    the current instant on the rows of some ids, all of them ids of due
    subscriptions, and leaves every other row as it was. *)
Theorem routine_only_sets_reminder_sent_at (business : string)
    (chat days_until : PyVal) (w : World) :
  let w' := snd (send_reminder_for_business business chat days_until w) in
  exists ids : list string,
    (forall id, In id ids -> In id (map sub_id (due_now business days_until w)))
    /\ subscriptions w'
       = map (fun r => if existsb (String.eqb (sub_id r)) ids
                       then with_reminder_sent_at (Some (clock_now w)) r else r)
           (subscriptions w).
Proof.
  destruct (send_reminder_for_business_run business chat days_until w)
    as (w1 & Heq & _ & Hrun).
  rewrite Heq. cbn [snd].
  apply (routine_run_table business chat days_until w w1 Hrun).
Qed.

Lemma filter_map_fixed {A} (p : A -> bool) (f : A -> A) (l : list A) :
  (forall x, In x l -> p (f x) = p x) ->
  (forall x, In x l -> p x = true -> f x = x) ->
  List.filter p (map f l) = List.filter p l.
Proof.
  induction l as [|x l IH]; intros Hp Hf; [reflexivity|].
  simpl. rewrite (Hp x) by (left; reflexivity).
  rewrite IH.
  - destruct (p x) eqn:E; [|reflexivity].
    rewrite (Hf x); [reflexivity|left; reflexivity|exact E].
  - intros y Hy. apply Hp. right. exact Hy.
  - intros y Hy. apply Hf. right. exact Hy.
Qed.

Lemma NoDup_map_sub_id_eq (rows : list Subscription) (r d : Subscription) :
  NoDup (map sub_id rows) -> In r rows -> In d rows -> sub_id r = sub_id d -> r = d.
Proof.
  induction rows as [|x rows IH]; intros Hnd Hr Hd Heq; [destruct Hr|].
  simpl in Hnd. apply NoDup_cons in Hnd as [Hx Hnd].
  destruct Hr as [->|Hr], Hd as [->|Hd]; auto.
  - exfalso. apply Hx. apply list_elem_of_In. rewrite Heq. apply in_map, Hd.
  - exfalso. apply Hx. apply list_elem_of_In. rewrite <- Heq. apply in_map, Hr.
Qed.

(** X3: when the ids of the table are unique, a call for one business
    leaves the rows of every other business as they were. *)
Theorem other_businesses_are_untouched (business other : string)
    (chat days_until : PyVal) (w : World) :
  NoDup (map sub_id (subscriptions w)) ->
  other <> business ->
  business_rows other (snd (send_reminder_for_business business chat days_until w))
  = business_rows other w.
Proof.
  intros Hnd Hne.
  destruct (send_reminder_for_business_run business chat days_until w)
    as (w1 & Hcall & _ & Hrun).
  rewrite Hcall. cbn [snd].
  destruct (routine_run_table business chat days_until w w1 Hrun)
    as (ids & Hids & Heq).
  unfold business_rows. rewrite Heq.
  apply filter_map_fixed.
  - intros r _. destruct (existsb _ ids); reflexivity.
  - intros r Hr Hb. apply String.eqb_eq in Hb.
    destruct (existsb (String.eqb (sub_id r)) ids) eqn:E; [|reflexivity].
    exfalso. apply existsb_exists in E as (id & Hid & Hmatch).
    apply String.eqb_eq in Hmatch. subst id.
    apply Hids, in_map_iff in Hid as (d & Hdid & Hd).
    apply due_now_In in Hd as (Hdin & Hdb & _).
    assert (r = d) by (apply (NoDup_map_sub_id_eq (subscriptions w)); auto).
    subst d. congruence.
Qed.

(** ** The names shown in the message *)

Lemma client_map_of_snoc (cs : list Client) (c : Client) :
  client_map_of (cs ++ [c]) = <[client_ident c := full_name c]> (client_map_of cs).
Proof. unfold client_map_of. rewrite foldl_app. reflexivity. Qed.

Lemma last_filter_snoc {A} (p : A -> bool) (l : list A) (x : A) :
  last (List.filter p (l ++ [x]))
  = if p x then Some x else last (List.filter p l).
Proof.
  rewrite List.filter_app. simpl. destruct (p x).
  - apply last_snoc.
  - rewrite app_nil_r. reflexivity.
Qed.

(** X4: the dictionary of client names maps an id to the name of the last
    client row of that id, and has no entry for an id that no client row
    has, so that such a subscription is listed as "Unknown". *)
Theorem client_map_holds_the_last_name (cs : list Client) (id : string) :
  client_map_of cs !! id
  = full_name <$> last (List.filter (fun c => String.eqb (client_ident c) id) cs).
Proof.
  induction cs as [|c cs IH] using rev_ind; [reflexivity|].
  rewrite client_map_of_snoc, last_filter_snoc.
  destruct (String.eqb_spec (client_ident c) id) as [->|Hne].
  - apply lookup_insert_eq.
  - rewrite lookup_insert_ne by exact Hne. exact IH.
Qed.

(** ** The owners a sweep processes *)

Section SweepCoverage.

Variable get_owner_by_telegram : PyVal -> M (option (OwnerProfile * Business)).
Variable reminder_routine : string -> PyVal -> PyVal -> M unit.

Lemma sweep_owner_skips (current_hour : Z) (owner_row : gmap string PyVal) (w : World) :
  owner_is_due current_hour owner_row = false ->
  sweep_owner get_owner_by_telegram reminder_routine current_hour owner_row w
  = (Returns tt, w).
Proof.
  unfold owner_is_due, sweep_owner. intros Hdue.
  destruct (py_eq _ _); [|reflexivity].
  simpl in Hdue. rewrite Hdue. reflexivity.
Qed.

(** X5: the loop of the sweep does something only for the rows whose
    reminder hour (10 when missing) is the current hour and whose
    [telegram_user_id] is truthy: going over all the rows is going over
    those rows alone, in the same order, whatever the owner lookup and the
    routine do. *)
Theorem sweep_processes_only_due_owners (current_hour : Z)
    (owners : list (gmap string PyVal)) (w : World) :
  for_each (sweep_owner get_owner_by_telegram reminder_routine current_hour) owners w
  = for_each (sweep_owner get_owner_by_telegram reminder_routine current_hour)
      (List.filter (owner_is_due current_hour) owners) w.
Proof.
  revert w. induction owners as [|row owners IH]; intros w; [reflexivity|].
  cbn [List.filter]. destruct (owner_is_due current_hour row) eqn:Hdue.
  - cbn [for_each]. unfold bind.
    destruct (sweep_owner _ _ _ row w) as [[[]|exc] w1]; [apply IH|reflexivity].
  - cbn [for_each]. unfold bind at 1.
    rewrite (sweep_owner_skips _ _ _ Hdue). apply IH.
Qed.

(** X6: when the request for the owner rows is refused or breaks, the
    sweep returns normally after that one round trip: no owner is looked
    up, the routine is not called, nothing is sent or marked, and one
    record of level WARNING or ERROR is logged. *)
Theorem sweep_gives_up_when_owners_cannot_be_fetched (w : World) :
  outcome_ok (io_script w (io_count w)) = false ->
  exists w' r,
    hourly_reminders get_owner_by_telegram reminder_routine w = (Returns tt, w')
    /\ io_count w' = S (io_count w)
    /\ outbox w' = outbox w
    /\ subscriptions w' = subscriptions w
    /\ log w'
       = log w
         ++ (if is_debug w then [LogRunningHourlyCheck (clock_hour w)] else [])
         ++ [r]
    /\ (level_of r = WARNING \/ level_of r = ERROR).
Proof.
  intros Hfail.
  unfold hourly_reminders, bind at 1, gets. unfold bind at 1. unfold bind at 1.
  unfold try_except, bind, rest_get_enabled_owner_profiles, bind, http.
  destruct (is_debug w) eqn:Hdbg; unfold logger, modify, ret; cbn beta iota;
    cbn [io_script io_count set_log];
    destruct (io_script w (io_count w)) as [c|exc]; simpl in Hfail;
    try rewrite Hfail; cbn beta iota; try rewrite geb_400, Hfail; cbn [negb];
    eexists; eexists; (split; [reflexivity|]); cbn;
    rewrite ?Hdbg, <- ?app_assoc; repeat split; auto.
Qed.

End SweepCoverage.

(** ** Updates of a subscription *)

Lemma patch_rows_none (id : string) (body : Subscription -> Subscription)
    (rows : list Subscription) :
  (forall s, In s rows -> sub_id s <> id) -> patch_rows id body rows = rows.
Proof.
  intros Hnone. unfold patch_rows.
  rewrite <- (map_id rows) at 2. apply map_ext_in. intros s Hs.
  destruct (String.eqb_spec (sub_id s) id) as [E|E]; [|reflexivity].
  exfalso. exact (Hnone s Hs E).
Qed.

Lemma filter_id_none (id : string) (rows : list Subscription) :
  (forall s, In s rows -> sub_id s <> id) ->
  List.filter (fun s => String.eqb (sub_id s) id) rows = [].
Proof.
  intros Hnone. induction rows as [|s rows IH]; [reflexivity|].
  simpl. destruct (String.eqb_spec (sub_id s) id) as [E|E].
  - exfalso. apply (Hnone s); [left; reflexivity|exact E].
  - apply IH. intros s' Hs'. apply Hnone. right. exact Hs'.
Qed.

Lemma set_reminder_sent_as_patch (id : string) (t : datetime) (rows : list Subscription) :
  set_reminder_sent id t rows = patch_rows id (with_reminder_sent_at (Some t)) rows.
Proof. reflexivity. Qed.

(** A [PATCH] of the subscriptions, by the outcome of its round trip. *)
Lemma rest_patch_subscriptions_ok (id : string) (body : Subscription -> Subscription)
    (w : World) :
  outcome_ok (io_script w (io_count w)) = true ->
  exists c,
    (c <? 400) = true /\
    rest_patch_subscriptions id body w
    = (Returns (c, List.filter (fun s => String.eqb (sub_id s) id)
                     (patch_rows id body (subscriptions w))),
       set_subscriptions (patch_rows id body (subscriptions w)) (tick w)).
Proof.
  intros Hok. unfold rest_patch_subscriptions, bind, http.
  destruct (io_script w (io_count w)) as [c|exc]; simpl in Hok; [|discriminate].
  exists c. split; [exact Hok|]. rewrite Hok. reflexivity.
Qed.

Lemma rest_patch_subscriptions_failed (id : string) (body : Subscription -> Subscription)
    (w : World) :
  outcome_ok (io_script w (io_count w)) = false ->
  (exists c, (c <? 400) = false
             /\ rest_patch_subscriptions id body w = (Returns (c, []), tick w))
  \/ (exists exc, rest_patch_subscriptions id body w = (Raises exc, tick w)).
Proof.
  intros Hok. unfold rest_patch_subscriptions, bind, http.
  destruct (io_script w (io_count w)) as [c|exc]; simpl in Hok.
  - left. exists c. split; [exact Hok|]. rewrite Hok. reflexivity.
  - right. exists exc. reflexivity.
Qed.

(** X7: for an id that no row of the table has, [mark_reminder_sent],
    [update_subscription_status] and [renew_subscription] raise a
    [SupabaseError] once the request is answered, and the table is as it
    was. *)
Theorem unknown_subscription_is_reported (id : string) (w : World) :
  (forall s, In s (subscriptions w) -> sub_id s <> id) ->
  outcome_ok (io_script w (io_count w)) = true ->
  (fst (mark_reminder_sent id w)
   = Raises (SupabaseError "Subscription not found to update")
   /\ subscriptions (snd (mark_reminder_sent id w)) = subscriptions w)
  /\ (forall st,
        fst (update_subscription_status id st w)
        = Raises (SupabaseError "Subscription not found")
        /\ subscriptions (snd (update_subscription_status id st w)) = subscriptions w)
  /\ (forall new_end,
        fst (renew_subscription id new_end w)
        = Raises (SupabaseError "Subscription not found")
        /\ subscriptions (snd (renew_subscription id new_end w)) = subscriptions w).
Proof.
  intros Hnone Hok.
  assert (Hgen : forall body,
             exists c, (c <? 400) = true /\
               rest_patch_subscriptions id body w
               = (Returns (c, []), set_subscriptions (subscriptions w) (tick w))).
  { intros body.
    destruct (rest_patch_subscriptions_ok id body w Hok) as (c & Hc & Heq).
    exists c. split; [exact Hc|].
    rewrite Heq, patch_rows_none, filter_id_none by exact Hnone. reflexivity. }
  split; [|split].
  - unfold mark_reminder_sent, bind at 1, gets. unfold bind.
    change (rest_patch_reminder_sent_at id (clock_now w))
      with (rest_patch_subscriptions id (with_reminder_sent_at (Some (clock_now w)))).
    destruct (Hgen (with_reminder_sent_at (Some (clock_now w)))) as (c & Hc & ->).
    rewrite geb_400, Hc. split; reflexivity.
  - intros st. unfold update_subscription_status, bind.
    destruct (Hgen (with_status st)) as (c & Hc & ->).
    rewrite geb_400, Hc. split; reflexivity.
  - intros new_end. unfold renew_subscription, bind.
    destruct (Hgen (with_end_date_active new_end)) as (c & Hc & ->).
    rewrite geb_400, Hc. split; reflexivity.
Qed.

Lemma expiring_today_business_rows_In (business : string) (today : date)
    (days_until : PyVal) (w : World) (s : Subscription) :
  In s (expiring_today today days_until (business_rows business w)) ->
  In s (subscriptions w) /\ status s = ACTIVE /\ reminder_sent_at s = None.
Proof.
  intros Hin. apply expiring_today_In in Hin as (Hin & Hst & _ & Hnone).
  unfold business_rows in Hin. apply business_rows_In in Hin. tauto.
Qed.

Lemma update_subscription_status_table (id : string) (st : SubscriptionStatus)
    (w : World) :
  subscriptions (snd (update_subscription_status id st w))
  = if outcome_ok (io_script w (io_count w))
    then patch_rows id (with_status st) (subscriptions w)
    else subscriptions w.
Proof.
  unfold update_subscription_status, bind.
  destruct (outcome_ok (io_script w (io_count w))) eqn:Hok.
  - destruct (rest_patch_subscriptions_ok id (with_status st) w Hok) as (c & Hc & ->).
    rewrite geb_400, Hc. cbn [negb].
    destruct (List.filter _ _); reflexivity.
  - destruct (rest_patch_subscriptions_failed id (with_status st) w Hok)
      as [(c & Hc & ->)|(exc & ->)]; [rewrite geb_400, Hc|]; reflexivity.
Qed.

Lemma renew_subscription_table (id : string) (new_end : date) (w : World) :
  subscriptions (snd (renew_subscription id new_end w))
  = if outcome_ok (io_script w (io_count w))
    then patch_rows id (with_end_date_active new_end) (subscriptions w)
    else subscriptions w.
Proof.
  unfold renew_subscription, bind.
  destruct (outcome_ok (io_script w (io_count w))) eqn:Hok.
  - destruct (rest_patch_subscriptions_ok id (with_end_date_active new_end) w Hok)
      as (c & Hc & ->).
    rewrite geb_400, Hc. cbn [negb].
    destruct (List.filter _ _); reflexivity.
  - destruct (rest_patch_subscriptions_failed id (with_end_date_active new_end) w Hok)
      as [(c & Hc & ->)|(exc & ->)]; [rewrite geb_400, Hc|]; reflexivity.
Qed.

Lemma patch_rows_In (id : string) (body : Subscription -> Subscription)
    (rows : list Subscription) (s : Subscription) :
  In s (patch_rows id body rows) ->
  exists s0, In s0 rows
    /\ ((sub_id s0 = id /\ s = body s0) \/ (sub_id s0 <> id /\ s = s0)).
Proof.
  unfold patch_rows. rewrite in_map_iff. intros (s0 & Hs & Hin).
  exists s0. split; [exact Hin|].
  destruct (String.eqb_spec (sub_id s0) id); [left|right]; auto.
Qed.

(** X8: once [update_subscription_status] has given a subscription a
    status other than Active (the request being answered with success), no
    row of that id is in the due set of any business, for any day and any
    lead time. *)
Theorem deactivated_subscription_is_never_due (id : string) (st : SubscriptionStatus)
    (w : World) (business : string) (today : date) (days_until : PyVal)
    (s : Subscription) :
  st <> ACTIVE ->
  outcome_ok (io_script w (io_count w)) = true ->
  In s (expiring_today today days_until
          (business_rows business (snd (update_subscription_status id st w)))) ->
  sub_id s <> id.
Proof.
  intros Hst Hok Hin.
  apply expiring_today_business_rows_In in Hin as (Hin & Hact & _).
  rewrite update_subscription_status_table, Hok in Hin.
  apply patch_rows_In in Hin as (s0 & _ & [[_ ->]|[Hne ->]]).
  - simpl in Hact. contradiction.
  - exact Hne.
Qed.

(** X9: [renew_subscription] leaves [reminder_sent_at] as it is: a
    subscription whose reminder was sent before it is renewed is in no due
    set after the renewal either, for any day and any lead time, whatever
    the outcome of the request. *)
Theorem renewal_does_not_rearm_the_reminder (id : string) (new_end : date)
    (w : World) (business : string) (today : date) (days_until : PyVal)
    (s : Subscription) :
  (forall s0, In s0 (subscriptions w) -> sub_id s0 = id -> reminder_sent_at s0 <> None) ->
  In s (expiring_today today days_until
          (business_rows business (snd (renew_subscription id new_end w)))) ->
  sub_id s <> id.
Proof.
  intros Hsent Hin.
  apply expiring_today_business_rows_In in Hin as (Hin & _ & Hnone).
  rewrite renew_subscription_table in Hin.
  destruct (outcome_ok (io_script w (io_count w))).
  - apply patch_rows_In in Hin as (s0 & Hin0 & [[Hid ->]|[Hne ->]]).
    + simpl in Hnone. exfalso. exact (Hsent s0 Hin0 Hid Hnone).
    + exact Hne.
  - intros Hid. exact (Hsent s Hin Hid Hnone).
Qed.

(** ** Extending a subscription *)

Lemma rest_get_subscription_by_id_ok (id : string) (w : World) :
  outcome_ok (io_script w (io_count w)) = true ->
  exists c,
    (c <? 400) = true /\
    rest_get_subscription_by_id id w
    = (Returns (c, firstn 1 (List.filter (fun s => String.eqb (sub_id s) id)
                               (subscriptions w))),
       tick w).
Proof.
  intros Hok. unfold rest_get_subscription_by_id, bind, http.
  destruct (io_script w (io_count w)) as [c|exc]; simpl in Hok; [|discriminate].
  exists c. split; [exact Hok|]. rewrite Hok. reflexivity.
Qed.

Lemma date_add_days_ok (d : date) (n : Z) (w : World) :
  Z.abs n <= MAX_DELTA_DAYS -> MINORDINAL <= d + n <= MAXORDINAL ->
  date_add_days d n w = (Returns (d + n), w).
Proof.
  intros Hn [Hlo Hhi]. unfold date_add_days.
  apply Z.leb_le in Hn, Hlo, Hhi. rewrite Hn, Hlo, Hhi. reflexivity.
Qed.

Lemma date_add_days_overflow (d : date) (n : Z) (w : World) :
  MAX_DELTA_DAYS < Z.abs n \/ d + n < MINORDINAL \/ MAXORDINAL < d + n ->
  date_add_days d n w = (Raises OverflowError, w).
Proof.
  intros H. unfold date_add_days.
  destruct (Z.leb_spec (Z.abs n) MAX_DELTA_DAYS);
    destruct (Z.leb_spec MINORDINAL (d + n));
    destruct (Z.leb_spec (d + n) MAXORDINAL); try reflexivity; lia.
Qed.

Lemma patch_rows_filter (id : string) (ends : date) (rows : list Subscription) :
  List.filter (fun s => String.eqb (sub_id s) id)
    (patch_rows id (with_end_date_active ends) rows)
  = map (with_end_date_active ends)
      (List.filter (fun s => String.eqb (sub_id s) id) rows).
Proof.
  induction rows as [|s rows IH]; [reflexivity|].
  simpl. destruct (String.eqb (sub_id s) id) eqn:E; simpl; rewrite E, IH; reflexivity.
Qed.

(** The table after [extend_subscription], when the row is found, the new
    end date is a date and both round trips succeed. *)
Lemma extend_subscription_table (id : string) (days : Z) (w : World)
    (first : Subscription) (others : list Subscription) :
  outcome_ok (io_script w (io_count w)) = true ->
  outcome_ok (io_script w (S (io_count w))) = true ->
  List.filter (fun s => String.eqb (sub_id s) id) (subscriptions w) = first :: others ->
  Z.abs days <= MAX_DELTA_DAYS ->
  MINORDINAL <= end_date first + days <= MAXORDINAL ->
  extend_subscription id days w
  = (Returns (with_end_date_active (end_date first + days) first),
     set_subscriptions
       (patch_rows id (with_end_date_active (end_date first + days)) (subscriptions w))
       (tick (tick w))).
Proof.
  intros Hok0 Hok1 Hrows Hdays Hrange.
  unfold extend_subscription, bind at 1.
  destruct (rest_get_subscription_by_id_ok id w Hok0) as (c & Hc & ->).
  rewrite geb_400, Hc, Hrows. cbn [negb firstn]. unfold bind at 1.
  rewrite (date_add_days_ok _ _ _ Hdays Hrange).
  unfold renew_subscription, bind.
  destruct (rest_patch_subscriptions_ok id
              (with_end_date_active (end_date first + days)) (tick w) Hok1)
    as (c1 & Hc1 & ->).
  rewrite geb_400, Hc1. cbn [negb].
  change (subscriptions (tick w)) with (subscriptions w).
  rewrite patch_rows_filter, Hrows. reflexivity.
Qed.

(** X10: when the subscription exists, the new end date is a date and both
    round trips succeed, [extend_subscription] answers the subscription
    with its end date moved by the given number of days and the status
    Active, whatever the status was (a cancelled, frozen or expired
    subscription is made active again); in the table every row of that id
    has that end date and status, its other fields ([reminder_sent_at]
    among them) are kept, and the rows of other ids are as they were. *)
Theorem extend_moves_the_end_date_and_activates (id : string) (days : Z) (w : World)
    (first : Subscription) (others : list Subscription) :
  outcome_ok (io_script w (io_count w)) = true ->
  outcome_ok (io_script w (S (io_count w))) = true ->
  List.filter (fun s => String.eqb (sub_id s) id) (subscriptions w) = first :: others ->
  Z.abs days <= MAX_DELTA_DAYS ->
  MINORDINAL <= end_date first + days <= MAXORDINAL ->
  let r := extend_subscription id days w in
  (exists s, fst r = Returns s
             /\ end_date s = end_date first + days /\ status s = ACTIVE
             /\ reminder_sent_at s = reminder_sent_at first)
  /\ subscriptions (snd r)
     = map (fun s => if String.eqb (sub_id s) id
                     then with_end_date_active (end_date first + days) s else s)
         (subscriptions w).
Proof.
  intros Hok0 Hok1 Hrows Hdays Hrange.
  rewrite (extend_subscription_table id days w first others) by assumption.
  cbn [fst snd]. split; [|reflexivity].
  eexists. split; [reflexivity|]. repeat split.
Qed.

Lemma patch_rows_twice (id : string) (e1 e2 : date) (rows : list Subscription) :
  patch_rows id (with_end_date_active e2) (patch_rows id (with_end_date_active e1) rows)
  = patch_rows id (with_end_date_active e2) rows.
Proof.
  unfold patch_rows. rewrite map_map. apply map_ext. intros s.
  destruct (String.eqb (sub_id s) id) eqn:E; simpl; rewrite E; reflexivity.
Qed.

(** X11: two extensions in a row, by [a] and then by [b] days, leave the
    table as one extension by [a + b] days does, when the subscription
    exists, all the round trips succeed and the dates on the way are
    dates. *)
Theorem extensions_add_up (id : string) (a b : Z) (w : World)
    (first : Subscription) (others : list Subscription) :
  (forall i, (io_count w <= i < io_count w + 4)%nat -> outcome_ok (io_script w i) = true) ->
  List.filter (fun s => String.eqb (sub_id s) id) (subscriptions w) = first :: others ->
  Z.abs a <= MAX_DELTA_DAYS -> Z.abs b <= MAX_DELTA_DAYS ->
  Z.abs (a + b) <= MAX_DELTA_DAYS ->
  MINORDINAL <= end_date first + a <= MAXORDINAL ->
  MINORDINAL <= end_date first + a + b <= MAXORDINAL ->
  subscriptions (snd (extend_subscription id b (snd (extend_subscription id a w))))
  = subscriptions (snd (extend_subscription id (a + b) w)).
Proof.
  intros Hok Hrows Ha Hb Hab Hra Hrab.
  rewrite (extend_subscription_table id a w first others);
    [|apply Hok; lia|apply Hok; lia|exact Hrows|exact Ha|exact Hra].
  cbn [snd].
  rewrite (extend_subscription_table id (a + b) w first others);
    [|apply Hok; lia|apply Hok; lia|exact Hrows|exact Hab|lia].
  cbn [snd].
  erewrite (extend_subscription_table id b _
              (with_end_date_active (end_date first + a) first)
              (map (with_end_date_active (end_date first + a)) others)).
  - cbn [snd subscriptions set_subscriptions end_date with_end_date_active].
    rewrite patch_rows_twice. f_equal. f_equal. lia.
  - cbn. apply Hok. lia.
  - cbn. apply Hok. lia.
  - cbn [subscriptions set_subscriptions]. rewrite patch_rows_filter, Hrows. reflexivity.
  - exact Hb.
  - cbn [end_date with_end_date_active]. exact Hrab.
Qed.

(** X12: [extend_subscription] gives up before it changes anything: when
    the first request is refused or finds no row of the id it raises
    "Subscription not found" (when the request breaks, the exception of the
    transport) after that one round trip, and when the new end date is not
    a date it raises [OverflowError], again after that one round trip; the
    table is as it was. *)
Theorem extend_gives_up_before_the_update (id : string) (days : Z) (w : World) :
  let r := extend_subscription id days w in
  (outcome_ok (io_script w (io_count w)) = false
   \/ List.filter (fun s => String.eqb (sub_id s) id) (subscriptions w) = [] ->
   (fst r = Raises (SupabaseError "Subscription not found")
    \/ exists exc, io_script w (io_count w) = Broken exc /\ fst r = Raises exc)
   /\ io_count (snd r) = S (io_count w)
   /\ subscriptions (snd r) = subscriptions w)
  /\ (forall first others,
        outcome_ok (io_script w (io_count w)) = true ->
        List.filter (fun s => String.eqb (sub_id s) id) (subscriptions w)
        = first :: others ->
        MAX_DELTA_DAYS < Z.abs days
        \/ end_date first + days < MINORDINAL \/ MAXORDINAL < end_date first + days ->
        fst r = Raises OverflowError
        /\ io_count (snd r) = S (io_count w)
        /\ subscriptions (snd r) = subscriptions w).
Proof.
  cbv zeta. split.
  - intros Hfail.
    assert (Heq : (extend_subscription id days w
                   = (Raises (SupabaseError "Subscription not found"), tick w))
                  \/ exists exc, io_script w (io_count w) = Broken exc
                                 /\ extend_subscription id days w = (Raises exc, tick w)).
    { unfold extend_subscription, bind at 1.
      unfold rest_get_subscription_by_id, bind, http.
      destruct (io_script w (io_count w)) as [c|exc] eqn:Hio.
      - left. simpl in Hfail. destruct (c <? 400) eqn:Hc.
        + destruct Hfail as [Hfail|Hfail]; [discriminate|].
          unfold gets, ret. cbn beta iota. rewrite geb_400, Hc.
          change (subscriptions (tick w)) with (subscriptions w).
          rewrite Hfail. reflexivity.
        + unfold ret. cbn beta iota. rewrite geb_400, Hc. reflexivity.
      - right. exists exc. split; reflexivity. }
    destruct Heq as [->|(exc & Hio & ->)]; cbn [fst snd].
    + split; [left; reflexivity|]. split; reflexivity.
    + split; [right; exists exc; split; [exact Hio|reflexivity]|]. split; reflexivity.
  - intros first others Hok Hrows Hover.
    assert (Heq : extend_subscription id days w = (Raises OverflowError, tick w)).
    { unfold extend_subscription, bind at 1.
      destruct (rest_get_subscription_by_id_ok id w Hok) as (c & Hc & ->).
      rewrite geb_400, Hc, Hrows. cbn [negb firstn]. unfold bind.
      rewrite (date_add_days_overflow _ _ _ Hover). reflexivity. }
    rewrite Heq. repeat split; reflexivity.
Qed.

(** ** Statistics *)

Lemma Counter_snoc (keys : list string) (k : string) :
  Counter (keys ++ [k])
  = <[k := S (default 0%nat (Counter keys !! k))]> (Counter keys).
Proof. unfold Counter. rewrite foldl_app. reflexivity. Qed.

(** A counter holds, for each key, how often the key occurs. *)
Lemma Counter_lookup (keys : list string) (k : string) :
  default 0%nat (Counter keys !! k) = length (List.filter (String.eqb k) keys).
Proof.
  induction keys as [|x keys IH] using rev_ind; [reflexivity|].
  rewrite Counter_snoc, List.filter_app, length_app. cbn [List.filter].
  destruct (String.eqb k x) eqn:E.
  - apply String.eqb_eq in E. subst x.
    rewrite lookup_insert_eq. cbn. rewrite IH, Nat.add_1_r. reflexivity.
  - apply String.eqb_neq in E.
    rewrite lookup_insert_ne by congruence. cbn. rewrite IH, Nat.add_0_r. reflexivity.
Qed.

Lemma status_value_eqb (a b : SubscriptionStatus) :
  String.eqb (status_value a) (status_value b) = status_eqb a b.
Proof. destruct a, b; reflexivity. Qed.

Lemma count_by_value (st : SubscriptionStatus) (rows : list Subscription) :
  length (List.filter (String.eqb (status_value st))
            (map (fun s => status_value (status s)) rows))
  = length (List.filter (fun s => status_eqb st (status s)) rows).
Proof.
  induction rows as [|s rows IH]; [reflexivity|].
  simpl. rewrite status_value_eqb.
  destruct (status_eqb st (status s)); simpl; rewrite IH; reflexivity.
Qed.

Lemma counts_add_up (rows : list Subscription) :
  (length (List.filter (fun s => status_eqb ACTIVE (status s)) rows)
   + length (List.filter (fun s => status_eqb EXPIRED (status s)) rows)
   + length (List.filter (fun s => status_eqb CANCELLED (status s)) rows)
   + length (List.filter (fun s => status_eqb FROZEN (status s)) rows))%nat
  = length rows.
Proof.
  induction rows as [|s rows IH]; [reflexivity|].
  cbn [List.filter length]. rewrite <- IH.
  destruct (status s); cbn [status_eqb length]; lia.
Qed.

(** X13: when the subscriptions are loaded,
    [get_subscription_stats_for_business] answers one entry per status, in
    the order of the enumeration; the entry of a status is the number of
    subscriptions of the business with that status (0 when there is none),
    and the four entries add up to the number of subscriptions of the
    business. *)
Theorem stats_count_every_subscription_once (business : string) (w : World) :
  outcome_ok (io_script w (io_count w)) = true ->
  exists a e c f : nat,
    fst (get_subscription_stats_for_business business w)
    = Returns [(ACTIVE, a); (EXPIRED, e); (CANCELLED, c); (FROZEN, f)]
    /\ a = length (List.filter (fun s => status_eqb ACTIVE (status s))
                     (business_rows business w))
    /\ e = length (List.filter (fun s => status_eqb EXPIRED (status s))
                     (business_rows business w))
    /\ c = length (List.filter (fun s => status_eqb CANCELLED (status s))
                     (business_rows business w))
    /\ f = length (List.filter (fun s => status_eqb FROZEN (status s))
                     (business_rows business w))
    /\ (a + e + c + f)%nat = length (business_rows business w).
Proof.
  intros Hok. unfold get_subscription_stats_for_business, bind.
  rewrite (list_subscriptions_ok w business Hok). unfold ret. cbn [fst map ALL_STATUSES].
  rewrite !Counter_lookup, !count_by_value.
  do 4 eexists. split; [reflexivity|].
  repeat (split; [reflexivity|]). apply counts_add_up.
Qed.

(** ** The window of [list_expiring_subscriptions] *)

Lemma list_expiring_subscriptions_returns (business : string) (days_until : Z)
    (w : World) (l : list Subscription) :
  fst (list_expiring_subscriptions business days_until w) = Returns l ->
  l = expiring_within (clock_today w) (clock_today w + days_until)
        (business_rows business w)
  /\ MINORDINAL <= clock_today w + days_until <= MAXORDINAL.
Proof.
  unfold list_expiring_subscriptions, bind at 1, gets. unfold bind at 1, date_add_days.
  destruct (Z.leb_spec (Z.abs days_until) MAX_DELTA_DAYS);
    destruct (Z.leb_spec MINORDINAL (clock_today w + days_until));
    destruct (Z.leb_spec (clock_today w + days_until) MAXORDINAL);
    cbn [andb]; try (unfold raise; cbn; discriminate).
  unfold ret at 1. unfold bind.
  destruct (outcome_ok (io_script w (io_count w))) eqn:Hok.
  - rewrite (list_subscriptions_ok w business Hok). unfold ret. cbn.
    intros [= <-]. split; [reflexivity|lia].
  - destruct (list_subscriptions_failed w business Hok) as (exc & ->).
    cbn. discriminate.
Qed.

(** X14: the window grows with the number of days: of two calls in the
    same world that both answer, the one with the larger [days_until]
    answers every subscription the other one answers (the 30-day list of a
    report holds the whole 7-day list). *)
Theorem expiring_window_grows (business : string) (d1 d2 : Z) (w : World)
    (l1 l2 : list Subscription) (s : Subscription) :
  d1 <= d2 ->
  fst (list_expiring_subscriptions business d1 w) = Returns l1 ->
  fst (list_expiring_subscriptions business d2 w) = Returns l2 ->
  In s l1 -> In s l2.
Proof.
  intros Hle H1 H2 Hin.
  apply list_expiring_subscriptions_returns in H1 as [-> _].
  apply list_expiring_subscriptions_returns in H2 as [-> _].
  apply expiring_within_In in Hin as (Hin & Hst & Hrange & Hnone).
  apply expiring_within_In. repeat split; auto; lia.
Qed.

(** X15: at the edges of the window: a [days_until] that leads out of the
    dates [date] can hold raises [OverflowError] before any request is
    made, the world being left as it was; and a negative [days_until]
    answers the empty list. *)
Theorem expiring_window_edges (business : string) (days_until : Z) (w : World) :
  (MAX_DELTA_DAYS < Z.abs days_until
   \/ clock_today w + days_until < MINORDINAL
   \/ MAXORDINAL < clock_today w + days_until ->
   list_expiring_subscriptions business days_until w = (Raises OverflowError, w))
  /\ (days_until < 0 ->
      forall l, fst (list_expiring_subscriptions business days_until w) = Returns l ->
                l = []).
Proof.
  split.
  - intros Hover. unfold list_expiring_subscriptions, bind at 1, gets. unfold bind.
    rewrite (date_add_days_overflow _ _ _ Hover). reflexivity.
  - intros Hneg l Hl.
    apply list_expiring_subscriptions_returns in Hl as [-> _].
    destruct (expiring_within _ _ _) as [|s rest] eqn:E; [reflexivity|].
    assert (Hin : In s (expiring_within (clock_today w) (clock_today w + days_until)
                          (business_rows business w))) by (rewrite E; left; reflexivity).
    apply expiring_within_In in Hin. lia.
Qed.

(** ** Reminder settings *)

Lemma settings_payload_enabled (enabled : option bool) (hour days_before : option Z)
    (tz : option string) :
  settings_payload enabled hour days_before tz !! "reminder_enabled" = PBool <$> enabled.
Proof.
  unfold settings_payload.
  destruct enabled, hour, days_before, tz; cbn [fmap option_fmap option_map];
    rewrite ?lookup_insert_ne by discriminate;
    rewrite ?lookup_insert_eq, ?lookup_empty; reflexivity.
Qed.

Lemma settings_payload_hour (enabled : option bool) (hour days_before : option Z)
    (tz : option string) :
  settings_payload enabled hour days_before tz !! "reminder_hour" = PInt <$> hour.
Proof.
  unfold settings_payload.
  destruct enabled, hour, days_before, tz; cbn [fmap option_fmap option_map];
    rewrite ?lookup_insert_ne by discriminate;
    rewrite ?lookup_insert_eq, ?lookup_empty; reflexivity.
Qed.

Lemma settings_payload_days (enabled : option bool) (hour days_before : option Z)
    (tz : option string) :
  settings_payload enabled hour days_before tz !! "reminder_days_before"
  = PInt <$> days_before.
Proof.
  unfold settings_payload.
  destruct enabled, hour, days_before, tz; cbn [fmap option_fmap option_map];
    rewrite ?lookup_insert_ne by discriminate;
    rewrite ?lookup_insert_eq, ?lookup_empty; reflexivity.
Qed.

Lemma settings_payload_other (enabled : option bool) (hour days_before : option Z)
    (tz : option string) (key : string) :
  key <> "reminder_enabled" -> key <> "reminder_hour" ->
  key <> "reminder_days_before" -> key <> "timezone" ->
  settings_payload enabled hour days_before tz !! key = None.
Proof.
  intros H1 H2 H3 H4. unfold settings_payload.
  destruct enabled, hour, days_before, tz;
    rewrite ?lookup_insert_ne by congruence; apply lookup_empty.
Qed.

Lemma settings_payload_empty (enabled : option bool) (hour days_before : option Z)
    (tz : option string) :
  settings_payload enabled hour days_before tz = ∅
  <-> enabled = None /\ hour = None /\ days_before = None /\ tz = None.
Proof.
  split.
  - intros Hempty.
    pose proof (settings_payload_enabled enabled hour days_before tz) as He.
    pose proof (settings_payload_hour enabled hour days_before tz) as Hh.
    pose proof (settings_payload_days enabled hour days_before tz) as Hd.
    rewrite Hempty, lookup_empty in He, Hh, Hd.
    destruct enabled, hour, days_before; try discriminate.
    destruct tz as [z|]; [|tauto].
    exfalso. revert Hempty. unfold settings_payload. apply insert_non_empty.
  - intros (-> & -> & -> & ->). reflexivity.
Qed.

Section ReminderSettingsProperties.

Variable OwnerProfile_model_validate : gmap string PyVal -> Result OwnerProfile.

(** The table [owner_profiles] after [update_reminder_settings]. *)
Lemma update_reminder_settings_table (owner : string) (enabled : option bool)
    (hour days_before : option Z) (tz : option string) (w : World) :
  settings_payload enabled hour days_before tz <> ∅ ->
  io_count (snd (update_reminder_settings OwnerProfile_model_validate owner
                   enabled hour days_before tz w)) = S (io_count w)
  /\ owner_profiles (snd (update_reminder_settings OwnerProfile_model_validate owner
                            enabled hour days_before tz w))
     = if outcome_ok (io_script w (io_count w))
       then map (fun row => if owned_by owner row
                            then settings_payload enabled hour days_before tz ∪ row
                            else row) (owner_profiles w)
       else owner_profiles w.
Proof.
  intros Hne. unfold update_reminder_settings.
  destruct (decide _) as [E|_]; [contradiction|].
  unfold bind, rest_patch_owner_profiles, bind, http.
  destruct (io_script w (io_count w)) as [c|exc]; cbn [outcome_ok].
  - destruct (c <? 400) eqn:Hc; unfold modify, gets, ret; cbn beta iota;
      rewrite geb_400, Hc; cbn [negb].
    + destruct (List.filter _ _); split; reflexivity.
    + split; reflexivity.
  - split; reflexivity.
Qed.

(** X16: [update_reminder_settings] without any setting raises
    [ValueError] before any request is made, the world being left as it
    was; with at least one setting it makes exactly one request. *)
Theorem settings_update_needs_a_setting (owner : string) (enabled : option bool)
    (hour days_before : option Z) (tz : option string) (w : World) :
  (enabled = None /\ hour = None /\ days_before = None /\ tz = None ->
   update_reminder_settings OwnerProfile_model_validate owner
     enabled hour days_before tz w
   = (Raises (OtherException "ValueError"), w))
  /\ (~ (enabled = None /\ hour = None /\ days_before = None /\ tz = None) ->
      io_count (snd (update_reminder_settings OwnerProfile_model_validate owner
                       enabled hour days_before tz w)) = S (io_count w)).
Proof.
  split.
  - intros (-> & -> & -> & ->). reflexivity.
  - intros Hsome. apply update_reminder_settings_table.
    rewrite settings_payload_empty. exact Hsome.
Qed.

Lemma payload_union_lookup (payload row : gmap string PyVal) (key : string) (v : PyVal) :
  payload !! key = Some v -> (payload ∪ row) !! key = Some v.
Proof. intros H. apply lookup_union_Some_l. exact H. Qed.

(** X17: once reminders are switched off for an owner (the request being
    answered with success), the rows the sweep fetches hold no row of that
    owner. *)
Theorem disabled_owner_is_not_fetched (owner : string) (hour days_before : option Z)
    (tz : option string) (w : World) (c : Z) (rows : list (gmap string PyVal))
    (w2 : World) (row : gmap string PyVal) :
  outcome_ok (io_script w (io_count w)) = true ->
  rest_get_enabled_owner_profiles
    (snd (update_reminder_settings OwnerProfile_model_validate owner
            (Some false) hour days_before tz w))
  = (Returns (c, rows), w2) ->
  In row rows -> owned_by owner row = false.
Proof.
  intros Hok Hfetch Hin.
  destruct (update_reminder_settings_table owner (Some false) hour days_before tz w)
    as [_ Htable].
  { rewrite settings_payload_empty. intros (H & _). discriminate. }
  rewrite Hok in Htable.
  remember (snd (update_reminder_settings OwnerProfile_model_validate owner
                   (Some false) hour days_before tz w)) as w1 eqn:Hw1.
  clear Hw1. revert Hfetch.
  unfold rest_get_enabled_owner_profiles, bind, http.
  destruct (io_script w1 (io_count w1)) as [c'|exc]; [|discriminate].
  destruct (c' <? 400); unfold gets, ret; cbn beta iota;
    intros Heq; injection Heq as _ Hrows _; subst rows; [|destruct Hin].
  cbn [owner_profiles tick set_io_count] in Hin. rewrite Htable in Hin.
  apply filter_In in Hin as [Hin Hen].
  apply in_map_iff in Hin as (row0 & <- & _).
  destruct (owned_by owner row0) eqn:Hown; [|exact Hown].
  rewrite (payload_union_lookup _ _ _ (PBool false)) in Hen; [discriminate|].
  apply settings_payload_enabled.
Qed.

(** X18: once the settings of an owner are saved as the settings dialog
    saves them (enabled, an hour and a number of days; the request being
    answered with success), every row of that owner is enabled, is due in
    a sweep of that hour and of no other hour (provided its
    [telegram_user_id] is truthy), and carries that number of days for the
    routine. *)
Theorem saved_settings_drive_the_sweep (owner : string) (hour days_before : Z)
    (tz : option string) (w : World) (row : gmap string PyVal) :
  outcome_ok (io_script w (io_count w)) = true ->
  In row (owner_profiles
            (snd (update_reminder_settings OwnerProfile_model_validate owner
                    (Some true) (Some hour) (Some days_before) tz w))) ->
  owned_by owner row = true ->
  row !! "reminder_enabled" = Some (PBool true)
  /\ owner_is_due hour row = truthy (dict_get row "telegram_user_id" PNone)
  /\ (forall other, other <> hour -> owner_is_due other row = false)
  /\ dict_get row "reminder_days_before" (PInt 7) = PInt days_before.
Proof.
  intros Hok Hin Hown.
  destruct (update_reminder_settings_table owner (Some true) (Some hour)
              (Some days_before) tz w) as [_ Htable].
  { rewrite settings_payload_empty. intros (H & _). discriminate. }
  rewrite Hok in Htable. rewrite Htable in Hin.
  apply in_map_iff in Hin as (row0 & <- & _).
  destruct (owned_by owner row0) eqn:Hown0; [|congruence].
  assert (He := payload_union_lookup _ row0 _ _
                  (settings_payload_enabled (Some true) (Some hour) (Some days_before) tz)).
  assert (Hh := payload_union_lookup _ row0 _ _
                  (settings_payload_hour (Some true) (Some hour) (Some days_before) tz)).
  assert (Hd := payload_union_lookup _ row0 _ _
                  (settings_payload_days (Some true) (Some hour) (Some days_before) tz)).
  cbn [fmap option_fmap option_map] in He, Hh, Hd.
  unfold owner_is_due, dict_get. rewrite Hh, Hd.
  split; [exact He|]. split; [|split; [|reflexivity]].
  - rewrite py_eq_int_eqb, Z.eqb_refl. reflexivity.
  - intros other Hne. rewrite py_eq_int_eqb.
    destruct (Z.eqb_spec hour other); [congruence|reflexivity].
Qed.

End ReminderSettingsProperties.

(** ** The global scheduler and the manual triggers *)

(** X19: [get_reminder_scheduler] without a bot raises [RuntimeError] as
    long as no scheduler was made, and makes none; and once a call has
    answered a scheduler, every later call answers that same scheduler and
    changes nothing, whatever bot it is given. *)
Theorem scheduler_is_made_once (ss : Session) :
  (_scheduler ss = None ->
   get_reminder_scheduler None ss = (Raises (OtherException "RuntimeError"), ss))
  /\ (forall b s ss',
        get_reminder_scheduler b ss = (Returns s, ss') ->
        forall b', get_reminder_scheduler b' ss' = (Returns s, ss')).
Proof.
  split.
  - intros Hnone. unfold get_reminder_scheduler. rewrite Hnone. reflexivity.
  - intros b s ss' Hget b'. unfold get_reminder_scheduler in *.
    destruct (_scheduler ss) as [s0|] eqn:Hs.
    + injection Hget as <- <-. rewrite Hs. reflexivity.
    + destruct b as [b0|]; [|discriminate].
      injection Hget as <- <-. reflexivity.
Qed.

(** X20: once the scheduler exists, a manual trigger never answers the
    user and never raises: [/remind] is the routine with a lead time of 7
    days and [/remind3] the routine with 3 days, and since the routine
    keeps its failures to itself the user gets no answer when nothing is
    due, and none either when the loading or the send fails. *)
Theorem manual_trigger_never_answers (message : IncomingMessage) (b : Business)
    (user : Z) (s : SubscriptionReminderScheduler) (ss : Session) :
  from_user message = Some user ->
  _scheduler ss = Some s ->
  cmd_remind message (Some b) ss
  = (Returns tt,
     with_world (snd (send_reminder_for_business (business_ident b) (PInt user)
                        (PInt 7) (world ss))) ss)
  /\ cmd_remind_3_days message (Some b) ss
     = (Returns tt,
        with_world (snd (send_reminder_for_business (business_ident b) (PInt user)
                           (PInt 3) (world ss))) ss).
Proof.
  intros Huser Hs.
  unfold cmd_remind, cmd_remind_3_days, remind_handler. rewrite Huser.
  unfold h_try_except, h_bind, get_reminder_scheduler. rewrite Hs.
  unfold lift.
  destruct (send_reminder_for_business_run (business_ident b) (PInt user) (PInt 7)
              (world ss)) as (w7 & -> & _).
  destruct (send_reminder_for_business_run (business_ident b) (PInt user) (PInt 3)
              (world ss)) as (w3 & -> & _).
  split; reflexivity.
Qed.

Lemma cmd_remind_without_scheduler_run (message : IncomingMessage) (b : Business)
    (user : Z) (ss : Session) :
  from_user message = Some user ->
  _scheduler ss = None ->
  cmd_remind message (Some b) ss
  = let ss1 := {| world := tick (world ss); answers := answers ss;
                  handler_log := handler_log ss
                                 ++ [LogRemindError (OtherException "RuntimeError")];
                  _scheduler := None |} in
    match io_script (world ss) (io_count (world ss)) with
    | Reply c =>
        if c <? 400
        then (Returns tt,
              {| world := world ss1; answers := answers ss1 ++ [AnswerReminderFailed];
                 handler_log := handler_log ss1; _scheduler := _scheduler ss1 |})
        else (Raises TelegramAPIError, ss1)
    | Broken exc => (Raises exc, ss1)
    end.
Proof.
  intros Huser Hs.
  unfold cmd_remind, remind_handler. rewrite Huser.
  unfold h_try_except, h_bind at 1, get_reminder_scheduler. rewrite Hs.
  unfold h_bind, handler_logger, message_answer, h_bind, lift, http.
  cbn [world].
  destruct (io_script (world ss) (io_count (world ss))) as [c|exc];
    [|cbn; rewrite ?Hs; reflexivity].
  rewrite geb_400. destruct (c <? 400); cbn; rewrite ?Hs; reflexivity.
Qed.

(** X21: as long as no scheduler was made, a manual trigger does not run
    the routine: it logs the [RuntimeError], makes the one request of its
    failure answer, and sends and marks nothing; the failure answer is
    given when that request succeeds, and when it fails the handler lets
    the exception of the request out. *)
Theorem manual_trigger_without_scheduler (message : IncomingMessage) (b : Business)
    (user : Z) (ss : Session) :
  from_user message = Some user ->
  _scheduler ss = None ->
  let r := cmd_remind message (Some b) ss in
  handler_log (snd r)
  = handler_log ss ++ [LogRemindError (OtherException "RuntimeError")]
  /\ io_count (world (snd r)) = S (io_count (world ss))
  /\ subscriptions (world (snd r)) = subscriptions (world ss)
  /\ outbox (world (snd r)) = outbox (world ss)
  /\ (if outcome_ok (io_script (world ss) (io_count (world ss)))
      then fst r = Returns tt /\ answers (snd r) = answers ss ++ [AnswerReminderFailed]
      else (exists exc, fst r = Raises exc) /\ answers (snd r) = answers ss).
Proof.
  intros Huser Hs. cbv zeta.
  rewrite (cmd_remind_without_scheduler_run message b user ss Huser Hs). cbv zeta.
  destruct (io_script (world ss) (io_count (world ss))) as [c|exc]; cbn [outcome_ok].
  - destruct (c <? 400); cbn; repeat split; eauto.
  - cbn. repeat split; eauto.
Qed.

(** ** Start, then stop *)

Lemma scheduler_shutdown_last (w : World) (rest : list AsyncIOScheduler)
    (s : AsyncIOScheduler) :
  schedulers w = rest ++ [s] ->
  scheduler_shutdown (length rest) w
  = (Returns tt,
     set_schedulers (rest ++ [{| state := STATE_STOPPED; jobs := jobs s |}]) w).
Proof.
  intros Hs. unfold scheduler_shutdown, update_scheduler, modify. rewrite Hs.
  replace (length rest) with (length rest + 0)%nat by lia.
  rewrite alter_app_r. reflexivity.
Qed.

(** X22: [stop] after [start] returns normally and cancels the timer that
    [start] registered: the registrations are those from before the
    [start], whatever they were. *)
Theorem stop_cancels_what_start_registered (w : World) :
  let r := stop (snd (start w)) in
  fst r = Returns tt
  /\ timer_registrations (snd r) = timer_registrations w.
Proof.
  destruct (start_run w) as (w1 & -> & Hs1 & Hself).
  cbn [snd]. cbv zeta.
  assert (Heq : stop w1
                = (Returns tt,
                   set_log (log w1 ++ [LogSchedulerStopped])
                     (set_schedulers
                        (schedulers w ++ [{| state := STATE_STOPPED;
                                             jobs := [hourly_job] |}]) w1))).
  { unfold stop, bind at 1, gets. rewrite Hself. unfold bind.
    rewrite (scheduler_shutdown_last w1 _ _ Hs1). reflexivity. }
  rewrite Heq. cbn [fst snd]. split; [reflexivity|].
  erewrite timer_registrations_app by reflexivity.
  cbn [state]. rewrite app_nil_r. reflexivity.
Qed.

(** ** A marked subscription *)

Lemma mark_reminder_sent_table (id : string) (w : World) :
  subscriptions (snd (mark_reminder_sent id w))
  = if outcome_ok (io_script w (io_count w))
    then set_reminder_sent id (clock_now w) (subscriptions w)
    else subscriptions w.
Proof.
  unfold mark_reminder_sent, bind at 1, gets. unfold bind.
  change (rest_patch_reminder_sent_at id (clock_now w))
    with (rest_patch_subscriptions id (with_reminder_sent_at (Some (clock_now w)))).
  destruct (outcome_ok (io_script w (io_count w))) eqn:Hok.
  - destruct (rest_patch_subscriptions_ok id
                (with_reminder_sent_at (Some (clock_now w))) w Hok) as (c & Hc & ->).
    rewrite geb_400, Hc. cbn [negb].
    destruct (List.filter _ _); reflexivity.
  - destruct (rest_patch_subscriptions_failed id
                (with_reminder_sent_at (Some (clock_now w))) w Hok)
      as [(c & Hc & ->)|(exc & ->)]; [rewrite geb_400, Hc|]; reflexivity.
Qed.

(** X23: once [mark_reminder_sent] has marked a subscription (the request
    being answered with success), no row of that id is in the due set of
    any business, for any day and any lead time. *)
Theorem marked_subscription_is_never_due (id : string) (w : World)
    (business : string) (today : date) (days_until : PyVal) (s : Subscription) :
  outcome_ok (io_script w (io_count w)) = true ->
  In s (expiring_today today days_until
          (business_rows business (snd (mark_reminder_sent id w)))) ->
  sub_id s <> id.
Proof.
  intros Hok Hin.
  apply expiring_today_business_rows_In in Hin as (Hin & _ & Hnone).
  rewrite mark_reminder_sent_table, Hok, set_reminder_sent_as_patch in Hin.
  apply patch_rows_In in Hin as (s0 & _ & [[_ ->]|[Hne ->]]).
  - simpl in Hnone. discriminate.
  - exact Hne.
Qed.

(** ** The further properties on worked inputs *)

Lemma at_most_one_message_and_no_marking_without_it_witness :
  let w := Examples.world_of [Examples.in_a_week] (Examples.breaks_at 2) in
  let w' := snd (send_reminder_for_business "gym" (PInt 5) (PInt 7) w) in
  outbox w' = outbox w /\ subscriptions w' = subscriptions w.
Proof.
  cbv zeta.
  split; [reflexivity|].
  apply (proj2 (at_most_one_message_and_no_marking_without_it "gym" (PInt 5) (PInt 7)
                  (Examples.world_of [Examples.in_a_week] (Examples.breaks_at 2)))).
  reflexivity.
Defined.

Lemma other_businesses_are_untouched_witness :
  business_rows "spa"
    (snd (send_reminder_for_business "gym" (PInt 5) (PInt 7)
            (Examples.world_of Cases.two_businesses Examples.always_ok)))
  = [Cases.spa_sub].
Proof.
  apply (other_businesses_are_untouched "gym" "spa" (PInt 5) (PInt 7)
           (Examples.world_of Cases.two_businesses Examples.always_ok)).
  - apply (bool_decide_unpack _). vm_compute. exact I.
  - discriminate.
Defined.

Lemma sweep_gives_up_when_owners_cannot_be_fetched_witness :
  let w := Examples.world_with_owners [Examples.owner_row_of 2 10]
             [Examples.in_a_week] (Examples.breaks_at 0) in
  exists w' r,
    hourly_reminders Examples.lookup_failing_for_1 send_reminder_for_business w
    = (Returns tt, w')
    /\ io_count w' = 1%nat
    /\ outbox w' = []
    /\ subscriptions w' = [Examples.in_a_week]
    /\ log w' = [r]
    /\ (level_of r = WARNING \/ level_of r = ERROR).
Proof.
  apply (sweep_gives_up_when_owners_cannot_be_fetched
           Examples.lookup_failing_for_1 send_reminder_for_business
           (Examples.world_with_owners [Examples.owner_row_of 2 10]
              [Examples.in_a_week] (Examples.breaks_at 0))).
  reflexivity.
Defined.

Lemma unknown_subscription_is_reported_witness :
  let w := Examples.world_of [Examples.in_a_week] Examples.always_ok in
  fst (update_subscription_status "nope" FROZEN w)
  = Raises (SupabaseError "Subscription not found")
  /\ subscriptions (snd (update_subscription_status "nope" FROZEN w)) = subscriptions w.
Proof.
  apply (proj1 (proj2 (unknown_subscription_is_reported "nope"
                         (Examples.world_of [Examples.in_a_week] Examples.always_ok)
                         ltac:(intros s [<-|[]]; discriminate)
                         ltac:(reflexivity)))).
Defined.

Lemma deactivated_subscription_is_never_due_witness :
  sub_id Examples.in_a_week' <> "s1".
Proof.
  apply (deactivated_subscription_is_never_due "s1" FROZEN
           (Examples.world_of [Examples.in_a_week; Examples.in_a_week'] Examples.always_ok)
           "gym" Examples.today0 (PInt 7) Examples.in_a_week').
  - discriminate.
  - reflexivity.
  - vm_compute. left. reflexivity.
Defined.

Lemma renewal_does_not_rearm_the_reminder_witness :
  sub_id Examples.in_a_week <> "s7".
Proof.
  apply (renewal_does_not_rearm_the_reminder "s7" (Examples.today0 + 37)
           (Examples.world_of Cases.two_businesses Examples.always_ok)
           "gym" Examples.today0 (PInt 7) Examples.in_a_week).
  - intros s0 [<-|[<-|[<-|[<-|[]]]]]; vm_compute; intros; discriminate.
  - vm_compute. left. reflexivity.
Defined.

Lemma extend_moves_the_end_date_and_activates_witness :
  let w := Examples.world_of Cases.two_businesses Examples.always_ok in
  let r := extend_subscription "s5" 30 w in
  (exists s, fst r = Returns s
             /\ end_date s = end_date Cases.cancelled + 30 /\ status s = ACTIVE
             /\ reminder_sent_at s = reminder_sent_at Cases.cancelled)
  /\ subscriptions (snd r)
     = map (fun s => if String.eqb (sub_id s) "s5"
                     then with_end_date_active (end_date Cases.cancelled + 30) s else s)
         (subscriptions w).
Proof.
  apply (extend_moves_the_end_date_and_activates "s5" 30
           (Examples.world_of Cases.two_businesses Examples.always_ok)
           Cases.cancelled []);
    try reflexivity; vm_compute; try split; congruence.
Defined.

Lemma extensions_add_up_witness :
  let w := Examples.world_of Cases.two_businesses Examples.always_ok in
  subscriptions (snd (extend_subscription "s5" 7 (snd (extend_subscription "s5" 30 w))))
  = subscriptions (snd (extend_subscription "s5" (30 + 7) w)).
Proof.
  apply (extensions_add_up "s5" 30 7
           (Examples.world_of Cases.two_businesses Examples.always_ok)
           Cases.cancelled []);
    try reflexivity; try (intros i _; reflexivity);
    vm_compute; try split; congruence.
Defined.

Lemma extend_gives_up_before_the_update_witness :
  let w := Examples.world_of Cases.two_businesses Examples.always_ok in
  (fst (extend_subscription "nope" 30 w)
   = Raises (SupabaseError "Subscription not found")
   \/ exists exc, io_script w (io_count w) = Broken exc
                  /\ fst (extend_subscription "nope" 30 w) = Raises exc)
  /\ io_count (snd (extend_subscription "nope" 30 w)) = 1%nat
  /\ subscriptions (snd (extend_subscription "nope" 30 w)) = subscriptions w.
Proof.
  apply (proj1 (extend_gives_up_before_the_update "nope" 30
                  (Examples.world_of Cases.two_businesses Examples.always_ok))).
  right. reflexivity.
Defined.

Lemma stats_count_every_subscription_once_witness :
  let w := Examples.world_of Cases.two_businesses Examples.always_ok in
  exists a e c f : nat,
    fst (get_subscription_stats_for_business "gym" w)
    = Returns [(ACTIVE, a); (EXPIRED, e); (CANCELLED, c); (FROZEN, f)]
    /\ a = 2%nat /\ e = 0%nat /\ c = 1%nat /\ f = 0%nat
    /\ (a + e + c + f)%nat = 3%nat.
Proof.
  apply (stats_count_every_subscription_once "gym"
           (Examples.world_of Cases.two_businesses Examples.always_ok)).
  reflexivity.
Defined.

Lemma expiring_window_grows_witness :
  In Examples.tomorrow
    (expiring_within Examples.today0 (Examples.today0 + 30)
       [Examples.in_a_week; Examples.tomorrow]).
Proof.
  apply (expiring_window_grows "gym" 7 30
           (Examples.world_of [Examples.in_a_week; Examples.tomorrow] Examples.always_ok)
           [Examples.in_a_week; Examples.tomorrow]
           (expiring_within Examples.today0 (Examples.today0 + 30)
              [Examples.in_a_week; Examples.tomorrow])
           Examples.tomorrow).
  - lia.
  - reflexivity.
  - reflexivity.
  - right. left. reflexivity.
Defined.

Lemma expiring_window_edges_witness :
  let w := Examples.world_of [Examples.in_a_week] Examples.always_ok in
  list_expiring_subscriptions "gym" 3000000 w = (Raises OverflowError, w).
Proof.
  apply (proj1 (expiring_window_edges "gym" 3000000
                  (Examples.world_of [Examples.in_a_week] Examples.always_ok))).
  right. right. vm_compute. reflexivity.
Defined.

Lemma settings_update_needs_a_setting_witness :
  let w := Examples.world_with_owners [Cases.profile_row "u" 2] [] Examples.always_ok in
  update_reminder_settings Cases.accept_all "u" None None None None w
  = (Raises (OtherException "ValueError"), w).
Proof.
  apply (proj1 (settings_update_needs_a_setting Cases.accept_all "u" None None None None
                  (Examples.world_with_owners [Cases.profile_row "u" 2] []
                     Examples.always_ok))).
  repeat split.
Defined.

Lemma disabled_owner_is_not_fetched_witness :
  let w := Examples.world_with_owners
             [Cases.profile_row "u" 2; Cases.profile_row "v" 3] [] Examples.always_ok in
  let w1 := snd (update_reminder_settings Cases.accept_all "u"
                   (Some false) None None None w) in
  owned_by "u" (Cases.profile_row "v" 3) = false.
Proof.
  cbv zeta.
  apply (disabled_owner_is_not_fetched Cases.accept_all "u" None None None
           (Examples.world_with_owners
              [Cases.profile_row "u" 2; Cases.profile_row "v" 3] [] Examples.always_ok)
           200 [Cases.profile_row "v" 3]
           (tick (snd (update_reminder_settings Cases.accept_all "u"
                         (Some false) None None None
                         (Examples.world_with_owners
                            [Cases.profile_row "u" 2; Cases.profile_row "v" 3] []
                            Examples.always_ok))))).
  - reflexivity.
  - vm_compute. reflexivity.
  - left. reflexivity.
Defined.

Lemma saved_settings_drive_the_sweep_witness :
  let row := settings_payload (Some true) (Some 9) (Some 14) None
             ∪ Cases.profile_row "u" 2 in
  row !! "reminder_enabled" = Some (PBool true)
  /\ owner_is_due 9 row = truthy (dict_get row "telegram_user_id" PNone)
  /\ (forall other, other <> 9 -> owner_is_due other row = false)
  /\ dict_get row "reminder_days_before" (PInt 7) = PInt 14.
Proof.
  apply (saved_settings_drive_the_sweep Cases.accept_all "u" 9 14 None
           (Examples.world_with_owners [Cases.profile_row "u" 2] [] Examples.always_ok)
           (settings_payload (Some true) (Some 9) (Some 14) None
            ∪ Cases.profile_row "u" 2)).
  - reflexivity.
  - vm_compute. left. reflexivity.
  - vm_compute. reflexivity.
Defined.

Lemma scheduler_is_made_once_witness :
  let ss := Cases.session_of (Examples.world_of [] Examples.always_ok) None in
  let ss' := snd (get_reminder_scheduler (Some "bot") ss) in
  get_reminder_scheduler None ss = (Raises (OtherException "RuntimeError"), ss)
  /\ get_reminder_scheduler (Some "other") ss' = (Returns Cases.the_scheduler, ss').
Proof.
  cbv zeta. split.
  - apply (proj1 (scheduler_is_made_once
                    (Cases.session_of (Examples.world_of [] Examples.always_ok) None))).
    reflexivity.
  - apply (proj2 (scheduler_is_made_once
                    (Cases.session_of (Examples.world_of [] Examples.always_ok) None))
             (Some "bot")).
    reflexivity.
Defined.

Lemma manual_trigger_never_answers_witness :
  let ss := Cases.session_of
              (Examples.world_of [Examples.in_a_week] (Examples.breaks_at 0))
              (Some Cases.the_scheduler) in
  answers (snd (cmd_remind Cases.from_user_5 (Some Examples.gym) ss)) = []
  /\ fst (cmd_remind Cases.from_user_5 (Some Examples.gym) ss) = Returns tt.
Proof.
  cbv zeta.
  rewrite (proj1 (manual_trigger_never_answers Cases.from_user_5 Examples.gym 5
                    Cases.the_scheduler
                    (Cases.session_of
                       (Examples.world_of [Examples.in_a_week] (Examples.breaks_at 0))
                       (Some Cases.the_scheduler))
                    eq_refl eq_refl)).
  split; reflexivity.
Defined.

Lemma manual_trigger_without_scheduler_witness :
  let ss := Cases.session_of
              (Examples.world_of [Examples.in_a_week] Examples.always_ok) None in
  let r := cmd_remind Cases.from_user_5 (Some Examples.gym) ss in
  handler_log (snd r) = [LogRemindError (OtherException "RuntimeError")]
  /\ io_count (world (snd r)) = 1%nat
  /\ subscriptions (world (snd r)) = [Examples.in_a_week]
  /\ outbox (world (snd r)) = []
  /\ fst r = Returns tt /\ answers (snd r) = [AnswerReminderFailed].
Proof.
  apply (manual_trigger_without_scheduler Cases.from_user_5 Examples.gym 5
           (Cases.session_of
              (Examples.world_of [Examples.in_a_week] Examples.always_ok) None));
    reflexivity.
Defined.

Lemma marked_subscription_is_never_due_witness :
  sub_id Examples.in_a_week' <> "s1".
Proof.
  apply (marked_subscription_is_never_due "s1"
           (Examples.world_of [Examples.in_a_week; Examples.in_a_week'] Examples.always_ok)
           "gym" Examples.today0 (PInt 7) Examples.in_a_week').
  - reflexivity.
  - vm_compute. left. reflexivity.
Defined.
